(** * catalyst.exchange.exchange_algorithm

    A shallow embedding of [catalyst/exchange/exchange_algorithm.py]:
    the order-parameter conversion, the period statistics, the portfolio
    synchronisation over several exchanges, the retried call in
    [handle_data], the start-up from the saved cumulative performance and
    the interruption handler.

    Python floats are IEEE binary64 numbers, here Rocq's primitive floats;
    [None] is [option]; a [dict] iterated in insertion order is an
    association list, a [dict] used as a key/value store is a [gmap];
    a raised exception is the [Raise] case of [result]. *)

From Stdlib Require Import Floats ZArith Lia.
From stdpp Require Import base option list gmap strings.

Local Open Scope string_scope.

(** ** Python values, errors and results *)

(** Truth value of a Python float: [bool(x)] is [x != 0.0], so both zeros
    are falsy and a NaN is truthy. *)
Definition float_truthy (x : float) : bool := negb (PrimFloat.eqb x 0%float).

(** Truth value of [None] or a number. *)
Definition truthy (p : option float) : bool :=
match p with
| None => false
| Some x => float_truthy x
end.

(** [x is not None]. *)
Definition is_not_None {A} (x : option A) : bool :=
match x with
| None => false
| Some _ => true
end.

(** The exceptions the module raises or lets through.
    [ExchangeRequestError] is the one listed in [retry_exceptions]. *)
Inductive Error : Type :=
| OrderTypeNotSupported (order_type : string)
| ValueError (msg : string)
| ExchangeRequestError (msg : string)
| OtherError (kind : string).

Inductive result (A : Type) : Type :=
| Ok (a : A)
| Raise (e : Error).
Arguments Ok {A} a.
Arguments Raise {A} e.

Definition is_ExchangeRequestError (e : Error) : bool :=
match e with
| ExchangeRequestError _ => true
| _ => false
end.

(** ** Order styles *)

(** The class of a style object.  [MarketOrder] and [ExchangeLimitOrder]
    are the two classes the module imports; both derive from
    [ExecutionStyle] only, and every other style class is [OtherStyle]
    with its class name. *)
Inductive ExecutionStyle : Type :=
| MarketOrder
| ExchangeLimitOrder (limit_price : float)
| OtherStyle (class_name : string).

(** [style.__class__.__name__] *)
Definition style_class_name (style : ExecutionStyle) : string :=
match style with
| MarketOrder => "MarketOrder"
| ExchangeLimitOrder _ => "ExchangeLimitOrder"
| OtherStyle n => n
end.

Definition isinstance_ExchangeLimitOrder (style : ExecutionStyle) : bool :=
match style with
| ExchangeLimitOrder _ => true
| _ => false
end.

Definition isinstance_MarketOrder (style : ExecutionStyle) : bool :=
match style with
| MarketOrder => true
| _ => false
end.

Definition style_and_limit_msg : string :=
  "An order style and a limit price was included in the order. Please pick one to avoid any possible conflict.".

(** [ExchangeTradingAlgorithmBase.__convert_order_params_for_blotter].
    A style object is truthy, so [if style:] is [style is not None]. *)
Definition __convert_order_params_for_blotter
  (limit_price stop_price : option float) (style : option ExecutionStyle)
  : result ExecutionStyle :=
if truthy stop_price then Raise (OrderTypeNotSupported "stop")
else match style with
     | Some st =>
         if is_not_None limit_price then Raise (ValueError style_and_limit_msg)
         else if negb (isinstance_ExchangeLimitOrder st)
                 || negb (isinstance_MarketOrder st)
              then Raise (OrderTypeNotSupported (style_class_name st))
              else Ok st
     | None =>
         match limit_price with
         | Some p => if float_truthy p then Ok (ExchangeLimitOrder p)
                     else Ok MarketOrder
         | None => Ok MarketOrder
         end
     end.

Section CalculateOrder.

(** [TradingAlgorithm.validate_order_params] belongs to the parent class:
    it either raises or returns nothing. *)
Context {AssetT : Type}.
Variable validate_order_params :
  AssetT -> float -> option float -> option float -> option ExecutionStyle ->
  option Error.

(** [ExchangeTradingAlgorithmBase._calculate_order] *)
Definition _calculate_order (asset : AssetT) (amount : float)
  (limit_price stop_price : option float) (style : option ExecutionStyle)
  : result (float * ExecutionStyle) :=
match validate_order_params asset amount limit_price stop_price style with
| Some e => Raise e
| None =>
    match __convert_order_params_for_blotter limit_price stop_price style with
    | Ok st => Ok (amount, st)
    | Raise e => Raise e
    end
end.

End CalculateOrder.

(** ** Python dicts in insertion order *)

(** [d[k]] on an association list; [None] stands for a missing key. *)
Fixpoint dict_get {K V} `{EqDecision K} (k : K) (d : list (K * V)) : option V :=
match d with
| [] => None
| (k', v) :: rest => if decide (k' = k) then Some v else dict_get k rest
end.

(** [list(d)]: the keys, in order. *)
Definition dict_keys {K V} (d : list (K * V)) : list K := map fst d.

(** ** Assets, positions and the portfolio *)

Record Asset : Type := mkAsset {
  symbol : string;
  exchange : string
}.

#[global] Instance Asset_eq_dec : EqDecision Asset.
Proof. solve_decision. Defined.

#[global] Instance Asset_countable : Countable Asset.
Proof.
refine (inj_countable' (fun a => (symbol a, exchange a))
                       (fun p => mkAsset p.1 p.2) _).
intros []; reflexivity.
Defined.

Record Position : Type := mkPosition {
  asset : Asset;
  amount : float;
  last_sale_price : float;
  last_sale_date : Z
}.

(** [self.portfolio]: the cash and the positions keyed by asset. *)
Record Portfolio : Type := mkPortfolio {
  cash : float;
  positions : list (Asset * Position)
}.

(** The positions of [perf_tracker.position_tracker], keyed by asset. *)
Abbreviation Ledger := (gmap Asset Position).

(** Modelled from the spec: [group_assets_by_exchange] of
    [catalyst.exchange.utils.exchange_utils] is not in the source file;
    the spec has it partition the positions by the exchange of their
    asset, every asset belonging to exactly one exchange.  The groups keep
    the order of the assets. *)
Definition group_asset (groups : gmap string (list Asset)) (a : Asset)
  : gmap string (list Asset) :=
<[exchange a := (default [] (groups !! exchange a) ++ [a])%list]> groups.

(** Modelled from the spec: the dict of the groups, by exchange name. *)
Definition group_assets_by_exchange (assets : list Asset)
  : gmap string (list Asset) :=
fold_left group_asset assets ∅.

(** Modelled from the spec: [PositionTracker.update_position] is not in
    the source file; the spec has the merge overwrite amount,
    last_sale_price and last_sale_date of the ledger entry under the asset
    key. *)
Definition update_position (tracker : Ledger) (a : Asset) (amt : float)
  (date : Z) (price : float) : Ledger :=
<[a := mkPosition a amt price date]> tracker.

(** The loop [for position in exchange_positions: tracker.update_position(...)]. *)
Definition apply_positions (tracker : Ledger) (exchange_positions : list Position)
  : Ledger :=
fold_left
  (fun t p => update_position t (asset p) (amount p) (last_sale_date p)
                              (last_sale_price p))
  exchange_positions tracker.

(** [copy.deepcopy([positions[asset] for asset in assets if asset in positions])]:
    the copies are the values themselves. *)
Definition positions_of (positions : list (Asset * Position))
  (assets : list Asset) : list Position :=
omap (fun a => dict_get a positions) assets.

(** Python's [sum] of floats: additions from the left, starting at zero. *)
Definition float_sum (l : list float) : float :=
fold_left PrimFloat.add l 0%float.

(** The retry settings of [ExchangeTradingAlgorithmBase.__init__]. *)
Record Attempts : Type := mkAttempts {
  get_transactions_attempts : positive;
  order_attempts : positive;
  synchronize_portfolio_attempts : positive;
  get_order_attempts : positive;
  get_open_orders_attempts : positive;
  cancel_order_attempts : positive;
  get_spot_value_attempts : positive;
  get_history_window_attempts : positive;
  retry_sleeptime : Z
}.

Definition default_attempts : Attempts :=
{| get_transactions_attempts := 5;
   order_attempts := 5;
   synchronize_portfolio_attempts := 5;
   get_order_attempts := 5;
   get_open_orders_attempts := 5;
   cancel_order_attempts := 5;
   get_spot_value_attempts := 5;
   get_history_window_attempts := 5;
   retry_sleeptime := 5 |}.

(** ** Rows and statistics dicts *)

Inductive Scalar : Type :=
| SNone
| SFloat (x : float)
| SInt (n : Z)
| STime (t : Z)
| SStr (s : string).

(** A dict of scalars: what [to_dict] gives for a transaction, an order or
    a position. *)
Abbreviation Row := (gmap string Scalar).

Inductive StatValue : Type :=
| VScalar (s : Scalar)
| VRows (rows : list Row).

(** The dict [prepare_period_stats] returns. *)
Abbreviation Stats := (gmap string StatValue).

(** ** The bounded retry *)

(** How a retried call ends: with the action's value, with an error that
    is not retried, or with the last error once the attempts are used up. *)
Inductive RetryOutcome (T : Type) : Type :=
| Returned (v : T)
| Propagated (e : Error)
| RetryExhausted (last : Error).
Arguments Returned {T} v.
Arguments Propagated {T} e.
Arguments RetryExhausted {T} last.

Section Retry.

Context {W T : Type}.
Variable action : W -> W * result T.
Variable sleeptime : Z.
Variable retry_exceptions : Error -> bool.
(** [time.sleep], as it acts on the state of the world. *)
Variable sleep : Z -> W -> W.

(** Modelled from the spec: the loop of [retry], which comes from the
    external package [redo] and is not in the source file: one attempt,
    followed by at most [more] further attempts, each after a sleep of
    the fixed interval, as long as the error is of a retryable kind. *)
Fixpoint retry_attempts (more : nat) (s : W) : W * RetryOutcome T :=
match action s with
| (s', Ok v) => (s', Returned v)
| (s', Raise e) =>
    if retry_exceptions e
    then match more with
         | O => (s', RetryExhausted e)
         | S k => retry_attempts k (sleep sleeptime s')
         end
    else (s', Propagated e)
end.

(** Modelled from the spec: [retry] comes from the external package
    [redo], which is not in the source file.  The spec's RetryExecutor
    calls the action; on a failure of a retryable kind it sleeps the
    policy's interval and tries again, up to [attempts] attempts in total;
    any other error propagates at once; after the last attempt the last
    error is propagated. *)
Definition retry (attempts : positive) (s : W) : W * RetryOutcome T :=
retry_attempts (Pos.to_nat attempts - 1) s.

End Retry.

(** ** The live algorithm *)

(** What the strategy's [analyze] callback is to the model: only whether
    one is configured matters, its calls are recorded in [analyze_calls]. *)
Definition Callback : Type := unit.

(** How the handler of the interruption signal ends: with
    [sys.exit(code)], or with an exception that leaves it. *)
Inductive Exit : Type :=
| SystemExit (code : Z)
| Uncaught (e : Error).

(** Where the handler of the interruption signal can be when another
    signal arrives: stopped, before the analysis is called; in the
    analysis; or after it, before [sys.exit]. *)
Inductive HandlerPoint : Type :=
| Stopped
| Analyzing
| Analyzed.

Section Live.

(** The state of an [Exchange] object, and its [sync_positions]: given the
    copied positions, [check_balances] and the cash, it raises or returns
    the cash and the value of the positions, having updated the positions
    of the list in place; the list after the call is the third component. *)
Context {Gateway : Type}.
Variable sync_positions :
  Gateway -> list Position -> bool -> float ->
  Gateway * result (float * float * list Position).

(** The attributes of [ExchangeTradingAlgorithmLive] that portfolio
    synchronisation, [handle_data] and [interrupt_algorithm] read or
    write.  [tracker] is [perf_tracker.position_tracker], [daily_perf] the
    files of the folder of that name, [slept] the arguments of the calls
    of [time.sleep] so far. *)
Record Algo : Type := mkAlgo {
  exchanges : list (string * Gateway);
  simulate_orders : option bool;
  attempts : Attempts;
  is_running : bool;
  portfolio_needs_update : bool;
  portfolio : Portfolio;
  tracker : Ledger;
  _analyze : option Callback;
  analyze_calls : list (list Stats);
  daily_perf : list (string * Stats);
  slept : list Z
}.

Definition set_exchanges (v : list (string * Gateway)) (self : Algo) : Algo :=
mkAlgo v (simulate_orders self) (attempts self) (is_running self)
       (portfolio_needs_update self) (portfolio self) (tracker self)
       (_analyze self) (analyze_calls self) (daily_perf self) (slept self).

Definition set_is_running (v : bool) (self : Algo) : Algo :=
mkAlgo (exchanges self) (simulate_orders self) (attempts self) v
       (portfolio_needs_update self) (portfolio self) (tracker self)
       (_analyze self) (analyze_calls self) (daily_perf self) (slept self).

Definition set_portfolio_needs_update (v : bool) (self : Algo) : Algo :=
mkAlgo (exchanges self) (simulate_orders self) (attempts self)
       (is_running self) v (portfolio self) (tracker self)
       (_analyze self) (analyze_calls self) (daily_perf self) (slept self).

Definition set_tracker (v : Ledger) (self : Algo) : Algo :=
mkAlgo (exchanges self) (simulate_orders self) (attempts self)
       (is_running self) (portfolio_needs_update self) (portfolio self) v
       (_analyze self) (analyze_calls self) (daily_perf self) (slept self).

Definition set_analyze_calls (v : list (list Stats)) (self : Algo) : Algo :=
mkAlgo (exchanges self) (simulate_orders self) (attempts self)
       (is_running self) (portfolio_needs_update self) (portfolio self)
       (tracker self) (_analyze self) v (daily_perf self) (slept self).

Definition set_slept (v : list Z) (self : Algo) : Algo :=
mkAlgo (exchanges self) (simulate_orders self) (attempts self)
       (is_running self) (portfolio_needs_update self) (portfolio self)
       (tracker self) (_analyze self) (analyze_calls self) (daily_perf self) v.

(** [not self.simulate_orders]: [None] and [False] are falsy. *)
Definition check_balances_of (self : Algo) : bool :=
match simulate_orders self with
| Some true => false
| _ => true
end.

(** The loop over [self.exchanges] of [synchronize_portfolio], from the
    exchanges still to visit, the ledger and the two running totals.  It
    gives back the exchange objects after their calls, the ledger and what
    the loop ends with.  An exception leaves the loop where it is raised.
    [base_currency] is assigned in the loop and never read; it is left
    out. *)
Fixpoint sync_exchanges (check_balances : bool) (portfolio_cash : float)
  (pos : list (Asset * Position)) (exchange_assets : gmap string (list Asset))
  (todo : list (string * Gateway)) (t : Ledger)
  (total_cash total_positions_value : float)
  : list (string * Gateway) * Ledger * result (float * float) :=
match todo with
| [] => ([], t, Ok (total_cash, total_positions_value))
| (exchange_name, ex) :: rest =>
    let assets := default [] (exchange_assets !! exchange_name) in
    let exchange_positions := positions_of pos assets in
    match sync_positions ex exchange_positions check_balances portfolio_cash with
    | (ex', Raise e) => ((exchange_name, ex') :: rest, t, Raise e)
    | (ex', Ok (c, positions_value, exchange_positions')) =>
        let total_cash' := PrimFloat.add total_cash c in
        let total_positions_value' :=
          PrimFloat.add total_positions_value positions_value in
        let t' := apply_positions t exchange_positions' in
        match sync_exchanges check_balances portfolio_cash pos exchange_assets
                             rest t' total_cash' total_positions_value' with
        | (rest', t'', r) => ((exchange_name, ex') :: rest', t'', r)
        end
    end
end.

(** [ExchangeTradingAlgorithmLive.synchronize_portfolio] *)
Definition synchronize_portfolio (self : Algo) : Algo * result (float * float) :=
let check_balances := check_balances_of self in
let pos := positions (portfolio self) in
let assets := dict_keys pos in
let exchange_assets := group_assets_by_exchange assets in
match sync_exchanges check_balances (cash (portfolio self)) pos exchange_assets
                     (exchanges self) (tracker self) 0%float 0%float with
| (exs, t, r) =>
    let self' := set_tracker t (set_exchanges exs self) in
    match r with
    | Raise e => (self', Raise e)
    | Ok (total_cash, total_positions_value) =>
        if negb check_balances
        then (self', Ok (cash (portfolio self'), total_positions_value))
        else (self', Ok (total_cash, total_positions_value))
    end
end.

(** [time.sleep] on the algorithm's world. *)
Definition sleep (d : Z) (self : Algo) : Algo :=
set_slept (slept self ++ [d])%list self.

(** What [handle_data] does after the totals are logged: the strategy's
    callback, the account controls, the statistics and the checkpoint. *)
Variable rest_of_handle_data : Algo -> Algo * result unit.

(** [ExchangeTradingAlgorithmLive.handle_data], with the bookkeeping of
    [frame_stats] and of the performance tracker before the
    synchronisation left out.  When [portfolio_needs_update] is false the
    names [cash] and [positions_value] are unbound where they are logged. *)
Definition handle_data (self : Algo) : Algo * result unit :=
if negb (is_running self) then (self, Ok tt)
else if portfolio_needs_update self
then match retry synchronize_portfolio (retry_sleeptime (attempts self))
                 is_ExchangeRequestError sleep
                 (synchronize_portfolio_attempts (attempts self)) self with
     | (self', Returned _) =>
         rest_of_handle_data (set_portfolio_needs_update false self')
     | (self', Propagated e) => (self', Raise e)
     | (self', RetryExhausted e) => (self', Raise e)
     end
else (self, Raise (OtherError "UnboundLocalError")).

(** What reading the files of [daily_perf] back raises, when it does:
    [get_algo_folder], [listdir] on a folder that is not there, [open],
    [pickle.load], [pd.DataFrame].  The argument is what the folder
    holds. *)
Variable unreadable : list (string * Stats) -> option Error.

(** What [self.analyze(stats)], the strategy's analysis, raises, when it
    does. *)
Variable analyze_raises : list Stats -> option Error.

(** The analysis has been called on the daily statistics read back. *)
Definition analysis_called (self : Algo) : Algo :=
set_analyze_calls (analyze_calls self ++ [map snd (daily_perf self)])%list self.

(** [ExchangeTradingAlgorithmLive.interrupt_algorithm]: the daily
    statistics are read back from the files of [daily_perf] and handed to
    the [analyze] callback when there is one; then [sys.exit(0)].
    Nothing is caught on the way. *)
Definition interrupt_algorithm (self : Algo) : Algo * Exit :=
let self' := set_is_running false self in
match _analyze self' with
| None => (self', SystemExit 0)
| Some _ =>
    match unreadable (daily_perf self') with
    | Some e => (self', Uncaught e)
    | None =>
        let daily_perf_list := map snd (daily_perf self') in
        match analyze_raises daily_perf_list with
        | Some e => (analysis_called self', Uncaught e)
        | None => (analysis_called self', SystemExit 0)
        end
    end
end.

(** [ExchangeTradingAlgorithmLive.signal_handler] *)
Definition signal_handler (self : Algo) (signal : Z) : Algo * Exit :=
interrupt_algorithm self.

(** The state of the algorithm when the handler, started on [self], is at
    a point; nothing when the handler ends before it gets there. *)
Definition handler_state_at (point : HandlerPoint) (self : Algo) : option Algo :=
let self' := set_is_running false self in
match point with
| Stopped => Some self'
| Analyzing =>
    match _analyze self', unreadable (daily_perf self') with
    | Some _, None => Some (analysis_called self')
    | _, _ => None
    end
| Analyzed =>
    match _analyze self', unreadable (daily_perf self') with
    | Some _, None =>
        match analyze_raises (map snd (daily_perf self')) with
        | None => Some (analysis_called self')
        | Some _ => None
        end
    | _, _ => None
    end
end.

(** A signal that arrives while the handler is at a point: the handler
    is run again, inside the interrupted one, on the state reached; the
    exit or the exception that ends it leaves the interrupted handler as
    well, which catches nothing. *)
Definition signal_during (point : HandlerPoint) (self : Algo) (signal : Z)
  : option (Algo * Exit) :=
match handler_state_at point self with
| Some reached => Some (signal_handler reached signal)
| None => None
end.

End Live.

Arguments Algo : clear implicits.

(** ** The performance tracker, the period statistics and the start-up *)

(** What [position_tracker.stats()] gives, as far as it is read here. *)
Record PositionStats : Type := mkPositionStats {
  short_exposure : float;
  long_exposure : float;
  short_value : float;
  long_value : float;
  longs_count : Z;
  shorts_count : Z
}.

(** What [calc_period_stats] gives, as far as it is read here. *)
Record PeriodStats : Type := mkPeriodStats {
  gross_leverage : float;
  net_leverage : float
}.

(** Modelled from the spec: [get_algo_object] of
    [catalyst.exchange.utils.exchange_utils] is not in the source file;
    the spec's CheckpointStore loads the payload saved under a key of the
    algorithm's folder, or finds nothing. *)
Definition get_algo_object {A} (folder : gmap string A) (key : string)
  : option A :=
folder !! key.

(** Modelled from the spec: [save_algo_object], of the same module; a
    save overwrites what is under the key. *)
Definition save_algo_object {A} (folder : gmap string A) (key : string)
  (obj : A) : gmap string A :=
<[key := obj]> folder.

(** [start_dt <= date < end_dt] *)
Definition in_window (start_dt end_dt date : Z) : bool :=
(start_dt <=? date)%Z && (date <? end_dt)%Z.

Section Performance.

Context {Transaction Order : Type}.
Variable transaction_to_dict : Transaction -> Row.
Variable order_to_dict : Order -> Row.
Variable position_stats : Ledger -> PositionStats.
Variable calc_period_stats : PositionStats -> float -> PeriodStats.
Variable get_positions_list : Ledger -> list Row.

(** A [PerformancePeriod], as far as the module reads or writes it. *)
Record PerformancePeriod : Type := mkPerformancePeriod {
  starting_cash : float;
  starting_exposure : float;
  starting_value : float;
  ending_cash : float;
  ending_exposure : float;
  ending_value : float;
  cash_flow : float;
  pnl : float;
  returns : float;
  position_tracker : Ledger;
  processed_transactions : list (Z * list Transaction);
  orders_by_modified : list (Z * list (string * Order))
}.

(** A [PerformanceTracker]; [cumulative_risk_metrics] is held as the dict
    its [to_dict] gives. *)
Record PerformanceTracker : Type := mkPerformanceTracker {
  period_start : Z;
  period_end : Z;
  capital_base : float;
  progress : float;
  cumulative_performance : PerformancePeriod;
  todays_performance : PerformancePeriod;
  cumulative_risk_metrics : Stats
}.

(** The first loop of [prepare_period_stats]: the transactions of the
    dates of the window, in the order of the dates of the dict. *)
Definition window_transactions (start_dt end_dt : Z)
  (processed : list (Z * list Transaction)) : list Row :=
flat_map
  (fun entry => if in_window start_dt end_dt (fst entry)
                then map transaction_to_dict (snd entry)
                else [])
  processed.

(** The second loop: for the dates of the window, [orders[order].to_dict()]
    for each key [order] of the orders modified at that date. *)
Definition window_orders (start_dt end_dt : Z)
  (by_modified : list (Z * list (string * Order))) : list Row :=
flat_map
  (fun entry => if in_window start_dt end_dt (fst entry)
                then omap (fun order => order_to_dict <$> dict_get order (snd entry))
                          (dict_keys (snd entry))
                else [])
  by_modified.

Definition VFloat (x : float) : StatValue := VScalar (SFloat x).
Definition VInt (n : Z) : StatValue := VScalar (SInt n).
Definition VTime (t : Z) : StatValue := VScalar (STime t).

(** [ExchangeTradingAlgorithmBase.prepare_period_stats]; the tracker and
    the recorded variables are the attributes of [self] it reads. *)
Definition prepare_period_stats (perf_tracker : PerformanceTracker)
  (recorded_vars : Stats) (start_dt end_dt : Z) : Stats :=
let cum := cumulative_performance perf_tracker in
let pos_stats := position_stats (position_tracker cum) in
let period_stats := calc_period_stats pos_stats (ending_cash cum) in
let stats : Stats := list_to_map [
  ("period_start", VTime (period_start perf_tracker));
  ("period_end", VTime (period_end perf_tracker));
  ("capital_base", VFloat (capital_base perf_tracker));
  ("progress", VFloat (progress perf_tracker));
  ("ending_value", VFloat (ending_value cum));
  ("ending_exposure", VFloat (ending_exposure cum));
  ("capital_used", VFloat (cash_flow cum));
  ("starting_value", VFloat (starting_value cum));
  ("starting_exposure", VFloat (starting_exposure cum));
  ("starting_cash", VFloat (starting_cash cum));
  ("ending_cash", VFloat (ending_cash cum));
  ("portfolio_value", VFloat (PrimFloat.add (ending_cash cum) (ending_value cum)));
  ("pnl", VFloat (pnl cum));
  ("returns", VFloat (returns cum));
  ("period_open", VTime start_dt);
  ("period_close", VTime end_dt);
  ("gross_leverage", VFloat (gross_leverage period_stats));
  ("net_leverage", VFloat (net_leverage period_stats));
  ("short_exposure", VFloat (short_exposure pos_stats));
  ("long_exposure", VFloat (long_exposure pos_stats));
  ("short_value", VFloat (short_value pos_stats));
  ("long_value", VFloat (long_value pos_stats));
  ("longs_count", VInt (longs_count pos_stats));
  ("shorts_count", VInt (shorts_count pos_stats))
] in
let stats := cumulative_risk_metrics perf_tracker ∪ stats in
let stats := recorded_vars ∪ stats in
let stats := <["positions" := VRows (get_positions_list (position_tracker cum))]> stats in
let period := todays_performance perf_tracker in
let stats :=
  <["transactions" :=
      VRows (window_transactions start_dt end_dt (processed_transactions period))]>
    stats in
let stats :=
  <["orders" := VRows (window_orders start_dt end_dt (orders_by_modified period))]>
    stats in
stats.

(** The [ExchangeAlgorithmExecutor] built at start-up; its generator is
    not modelled. *)
Definition TradingClient : Type := unit.

(** The attributes of the live algorithm that [get_generator] reads or
    writes, with the saved objects of the algorithm's folder. *)
Record Startup : Type := mkStartup {
  trading_client : option TradingClient;
  perf_tracker : option PerformanceTracker;
  initialized : bool;
  algo_objects : gmap string PerformancePeriod
}.

(** [PerformanceTracker(sim_params, trading_calendar, env)]: the tracker a
    cold start begins with. *)
Variable new_PerformanceTracker : PerformanceTracker.

(** The strategy's [initialize]. *)
Variable initialize : Startup -> Startup.

Definition set_starting (perf : PerformancePeriod) (period : PerformancePeriod)
  : PerformancePeriod :=
mkPerformancePeriod (ending_cash perf) (ending_exposure perf) (ending_value perf)
  (ending_cash period) (ending_exposure period) (ending_value period)
  (cash_flow period) (pnl period) (returns period)
  (position_tracker perf)
  (processed_transactions period) (orders_by_modified period).

(** The assignments under [if perf is not None:]. *)
Definition resume_from (perf : PerformancePeriod) (t : PerformanceTracker)
  : PerformanceTracker :=
mkPerformanceTracker (period_start t) (period_end t) (capital_base t)
  (progress t) perf (set_starting perf (todays_performance t))
  (cumulative_risk_metrics t).

(** [ExchangeTradingAlgorithmLive.get_generator], up to the generator it
    returns.  [tracker] of the source is the object [self.perf_tracker]
    holds. *)
Definition get_generator (self : Startup) : Startup :=
match trading_client self with
| Some _ => self
| None =>
    let '(self1, perf) :=
      match perf_tracker self with
      | None =>
          (mkStartup (trading_client self) (Some new_PerformanceTracker)
                     (initialized self) (algo_objects self),
           get_algo_object (algo_objects self) "cumulative_performance")
      | Some _ => (self, None)
      end in
    let self2 :=
      if initialized self1 then self1
      else let s := initialize self1 in
           mkStartup (trading_client s) (perf_tracker s) true (algo_objects s) in
    let self3 :=
      match perf with
      | Some p =>
          mkStartup (trading_client self2)
                    (resume_from p <$> perf_tracker self2)
                    (initialized self2) (algo_objects self2)
      | None => self2
      end in
    mkStartup (Some tt) (perf_tracker self3) (initialized self3)
              (algo_objects self3)
end.

End Performance.

Arguments PerformancePeriod : clear implicits.
Arguments PerformanceTracker : clear implicits.
Arguments Startup : clear implicits.

(** The positions handed to the exchange [exchange_name] by
    [synchronize_portfolio]: the copies of the portfolio's positions
    whose asset is grouped under that name. *)
Definition exchange_positions_of {Gateway} (self : Algo Gateway)
  (exchange_name : string) : list Position :=
positions_of (positions (portfolio self))
  (default [] (group_assets_by_exchange (dict_keys (positions (portfolio self)))
               !! exchange_name)).

(** The exchange [ex] answers the call [synchronize_portfolio] makes to it
    with the new state of the exchange object, the cash, the positions
    value and the positions of [out]. *)
Definition answers_with {Gateway}
  (sync_positions : Gateway -> list Position -> bool -> float ->
                    Gateway * result (float * float * list Position))
  (self : Algo Gateway) (ex : string * Gateway)
  (out : Gateway * (float * float * list Position)) : Prop :=
sync_positions ex.2 (exchange_positions_of self ex.1)
               (check_balances_of self) (cash (portfolio self))
= (out.1, Ok out.2).

(** The exchange [ex] answers that call with the cash and the positions
    value of [report]. *)
Definition reports_to {Gateway}
  (sync_positions : Gateway -> list Position -> bool -> float ->
                    Gateway * result (float * float * list Position))
  (self : Algo Gateway) (ex : string * Gateway) (report : float * float)
  : Prop :=
exists ex' ps', answers_with sync_positions self ex (ex', (report.1, report.2, ps')).

(** The portfolio's dict of positions holds each position under its own
    asset. *)
Definition keyed_by_asset (pos : list (Asset * Position)) : Prop :=
Forall (fun kv => asset kv.2 = kv.1) pos.

(** The gateway updates the positions it is handed in place: the list
    after the call has the assets of the list before it, in its order. *)
Definition keeps_assets {Gateway}
  (sync_positions : Gateway -> list Position -> bool -> float ->
                    Gateway * result (float * float * list Position)) : Prop :=
forall ex ps check_balances c ex' c' positions_value ps',
  sync_positions ex ps check_balances c = (ex', Ok (c', positions_value, ps')) ->
  map asset ps' = map asset ps.

(** The state after [n] failed attempts of [action], each followed by a
    sleep: where the next attempt of a retried call starts. *)
Definition after_failed {W T} (action : W -> W * result T) (sleeptime : Z)
  (sleep : Z -> W -> W) (n : nat) (s : W) : W :=
Nat.iter n (fun s => sleep sleeptime (fst (action s))) s.

(** ** Further functions of the module *)

(** [dict[k] = v] on an association list: the value under an existing key
    is replaced where it is, a new key is added at the end. *)
Fixpoint dict_set {K V} `{EqDecision K} (k : K) (v : V) (d : list (K * V))
  : list (K * V) :=
match d with
| [] => [(k, v)]
| (k', v') :: rest =>
    if decide (k' = k) then (k, v) :: rest else (k', v') :: dict_set k v rest
end.

(** [needle in haystack] on strings. *)
Definition str_contains (needle haystack : string) : bool :=
match String.index 0 needle haystack with
| Some _ => true
| None => false
end.

(** [try: body except Exception: pass] around a step that may raise: the
    state the step leaves is kept, the exception is dropped.  The errors
    of [Error] all derive from [Exception]. *)
Definition try_except {W A} (step : W * result A) : W * option A :=
match step with
| (w, Ok a) => (w, Some a)
| (w, Raise _) => (w, None)
end.

(** The part of [ExchangeTradingAlgorithmBase.__init__] that settles
    [simulate_orders]: left unset, it becomes [True] in the backtest
    arena. *)
Definition init_simulate_orders (simulate_orders : option bool) (arena : string)
  : option bool :=
match simulate_orders with
| None => if String.eqb arena "backtest" then Some true else None
| Some b => Some b
end.

(** Timestamps are nanoseconds since the epoch, in UTC. *)
Definition minute : Z := 60000000000.
Definition day : Z := 86400000000000.

(** [dt.date()], as the number of the day. *)
Definition date_of (dt : Z) : Z := (dt / day)%Z.

(** [dt.floor('1D')] *)
Definition floor_day (dt : Z) : Z := (dt / day * day)%Z.

(** [ExchangeTradingAlgorithmBacktest.is_last_frame_of_day], on
    [data.current_dt]. *)
Definition is_last_frame_of_day (current_dt : Z) : bool :=
let next_frame_dt := (current_dt + minute)%Z in
if (date_of next_frame_dt >? date_of current_dt)%Z then true else false.

(** ** Orders on the exchanges *)

(** What a retried call gives its caller: the value, or the exception
    that leaves the call. *)
Definition raise_outcome {W T} (o : W * RetryOutcome T) : W * result T :=
match o with
| (w, Returned v) => (w, Ok v)
| (w, Propagated e) => (w, Raise e)
| (w, RetryExhausted e) => (w, Raise e)
end.

(** What [get_open_orders] returns: the orders of an asset, or one list of
    orders per exchange. *)
Inductive OpenOrders (OrderT : Type) : Type :=
| OrdersOfAsset (orders : list OrderT)
| OrdersByExchange (orders : list (list OrderT)).
Arguments OrdersOfAsset {OrderT} orders.
Arguments OrdersByExchange {OrderT} orders.

(** The [order_param] of [cancel_order]: an order id or an [Order]. *)
Inductive OrderParam (OrderT : Type) : Type :=
| OrderId (id : string)
| OrderObject (order : OrderT).
Arguments OrderId {OrderT} id.
Arguments OrderObject {OrderT} order.

Section OrderManagement.

Context {Gateway OrderT : Type}.
(** [Exchange.get_open_orders], [Exchange.get_order] and
    [Exchange.cancel_order], on the state of the exchange object. *)
Variable exchange_get_open_orders :
  Gateway -> option Asset -> Gateway * result (list OrderT).
Variable exchange_get_order : Gateway -> string -> Gateway * result OrderT.
Variable exchange_cancel_order : Gateway -> string -> Gateway * result unit.
(** [order.id] *)
Variable order_id : OrderT -> string.

(** The loop of [_get_open_orders] over [self.exchanges], from the
    exchanges still to ask and the lists appended so far. *)
Fixpoint open_orders_of_all (todo : list (string * Gateway))
  (open_orders : list (list OrderT))
  : list (string * Gateway) * result (list (list OrderT)) :=
match todo with
| [] => ([], Ok open_orders)
| (exchange_name, ex) :: rest =>
    match exchange_get_open_orders ex None with
    | (ex', Raise e) => ((exchange_name, ex') :: rest, Raise e)
    | (ex', Ok exchange_orders) =>
        match open_orders_of_all rest (open_orders ++ [exchange_orders])%list with
        | (rest', r) => ((exchange_name, ex') :: rest', r)
        end
    end
end.

(** A method of the exchange object [self.exchanges[exchange_name]],
    called on the state the object is in. *)
Definition exchange_call {T} (method : Gateway -> Gateway * result T)
  (exchange_name : string) (self : Algo Gateway) : Algo Gateway * result T :=
match dict_get exchange_name (exchanges self) with
| None => (self, Raise (OtherError "KeyError"))
| Some ex =>
    match method ex with
    | (ex', r) =>
        (set_exchanges (dict_set exchange_name ex' (exchanges self)) self, r)
    end
end.

(** [ExchangeTradingAlgorithmLive._get_open_orders]; an asset object is
    truthy. *)
Definition _get_open_orders (a : option Asset) (self : Algo Gateway)
  : Algo Gateway * result (OpenOrders OrderT) :=
match a with
| Some a' =>
    match exchange_call (fun ex => exchange_get_open_orders ex (Some a'))
                        (exchange a') self with
    | (self', Ok orders) => (self', Ok (OrdersOfAsset orders))
    | (self', Raise e) => (self', Raise e)
    end
| None =>
    match open_orders_of_all (exchanges self) [] with
    | (exs, Ok open_orders) => (set_exchanges exs self, Ok (OrdersByExchange open_orders))
    | (exs, Raise e) => (set_exchanges exs self, Raise e)
    end
end.

(** [ExchangeTradingAlgorithmLive.get_open_orders] *)
Definition get_open_orders (a : option Asset) (self : Algo Gateway)
  : Algo Gateway * result (OpenOrders OrderT) :=
raise_outcome
  (retry (_get_open_orders a) (retry_sleeptime (attempts self))
         is_ExchangeRequestError sleep
         (get_open_orders_attempts (attempts self)) self).

(** [ExchangeTradingAlgorithmLive.get_order]: the exchange is looked up
    once, before the retried call of its [get_order]. *)
Definition get_order (oid exchange_name : string) (self : Algo Gateway)
  : Algo Gateway * result OrderT :=
match dict_get exchange_name (exchanges self) with
| None => (self, Raise (OtherError "KeyError"))
| Some _ =>
    raise_outcome
      (retry (exchange_call (fun ex => exchange_get_order ex oid) exchange_name)
             (retry_sleeptime (attempts self)) is_ExchangeRequestError sleep
             (get_order_attempts (attempts self)) self)
end.

(** [ExchangeTradingAlgorithmLive.cancel_order] *)
Definition cancel_order (order_param : OrderParam OrderT)
  (exchange_name : string) (self : Algo Gateway) : Algo Gateway * result unit :=
match dict_get exchange_name (exchanges self) with
| None => (self, Raise (OtherError "KeyError"))
| Some _ =>
    let oid := match order_param with
               | OrderObject order => order_id order
               | OrderId id => id
               end in
    raise_outcome
      (retry (exchange_call (fun ex => exchange_cancel_order ex oid) exchange_name)
             (retry_sleeptime (attempts self)) is_ExchangeRequestError sleep
             (cancel_order_attempts (attempts self)) self)
end.

End OrderManagement.

(** ** The statistics of a live tick *)

(** [d[key]] on a statistics dict. *)
Definition getitem (d : Stats) (key : string) : result StatValue :=
match d !! key with
| Some v => Ok v
| None => Raise (OtherError "KeyError")
end.

(** A step that may raise, followed by what comes after it. *)
Definition and_then {W A B} (step : W * result A) (next : W -> A -> W * result B)
  : W * result B :=
match step with
| (w, Ok a) => next w a
| (w, Raise e) => (w, Raise e)
end.

Module Tick.

Section Tick.

Context {Transaction Order : Type}.
Variable transaction_to_dict : Transaction -> Row.
Variable order_to_dict : Order -> Row.
Variable position_stats : Ledger -> PositionStats.
Variable calc_period_stats : PositionStats -> float -> PeriodStats.
Variable get_positions_list : Ledger -> list Row.
(** [perf_tracker.update_performance()]: the tracker as the call leaves
    it, updated in place, also when the call raises. *)
Variable update_performance :
  PerformanceTracker Transaction Order ->
  PerformanceTracker Transaction Order * result unit.
(** The arithmetic of [add_pnl_stats] on the starting cash and the
    portfolio value, whatever numbers or other values these are. *)
Variable percent_change : StatValue -> StatValue -> result float.
(** The writers of [catalyst.exchange.utils.stats_utils]. *)
Variable stats_to_algo_folder : list Stats -> option (list string) -> result string.
Variable stats_to_s3 :
  string -> list Stats -> option (list string) -> option string -> result unit.
(** [today.strftime('%Y-%m-%d')] *)
Variable strftime : Z -> string.

(** The attributes of [ExchangeTradingAlgorithmLive] that the statistics
    of a tick read or write.  The three frames of statistics are lists of
    rows with their index; [algo_objects] and [daily_perf] are the saved
    objects of the algorithm's folder and of its folder [daily_perf];
    [uploads] are the uri and the bytes of the calls of [stats_to_s3] so
    far. *)
Record Algo : Type := mkAlgo {
  frame_stats : list Stats;
  current_day : option Z;
  perf_tracker : PerformanceTracker Transaction Order;
  recorded_vars : Stats;
  pnl_stats : list (StatValue * float);
  custom_signals_stats : list (StatValue * Stats);
  exposure_stats : list (StatValue * (StatValue * StatValue));
  stats_output : option string;
  algo_objects : gmap string (PerformancePeriod Transaction Order);
  daily_perf : gmap string Stats;
  uploads : list (string * option string)
}.

Definition set_frame_stats (v : list Stats) (self : Algo) : Algo :=
mkAlgo v (current_day self) (perf_tracker self) (recorded_vars self)
       (pnl_stats self) (custom_signals_stats self) (exposure_stats self)
       (stats_output self) (algo_objects self) (daily_perf self) (uploads self).

Definition set_current_day (v : option Z) (self : Algo) : Algo :=
mkAlgo (frame_stats self) v (perf_tracker self) (recorded_vars self)
       (pnl_stats self) (custom_signals_stats self) (exposure_stats self)
       (stats_output self) (algo_objects self) (daily_perf self) (uploads self).

Definition set_perf_tracker (v : PerformanceTracker Transaction Order)
  (self : Algo) : Algo :=
mkAlgo (frame_stats self) (current_day self) v (recorded_vars self)
       (pnl_stats self) (custom_signals_stats self) (exposure_stats self)
       (stats_output self) (algo_objects self) (daily_perf self) (uploads self).

Definition set_pnl_stats (v : list (StatValue * float)) (self : Algo) : Algo :=
mkAlgo (frame_stats self) (current_day self) (perf_tracker self)
       (recorded_vars self) v (custom_signals_stats self) (exposure_stats self)
       (stats_output self) (algo_objects self) (daily_perf self) (uploads self).

Definition set_custom_signals_stats (v : list (StatValue * Stats))
  (self : Algo) : Algo :=
mkAlgo (frame_stats self) (current_day self) (perf_tracker self)
       (recorded_vars self) (pnl_stats self) v (exposure_stats self)
       (stats_output self) (algo_objects self) (daily_perf self) (uploads self).

Definition set_exposure_stats (v : list (StatValue * (StatValue * StatValue)))
  (self : Algo) : Algo :=
mkAlgo (frame_stats self) (current_day self) (perf_tracker self)
       (recorded_vars self) (pnl_stats self) (custom_signals_stats self) v
       (stats_output self) (algo_objects self) (daily_perf self) (uploads self).

Definition set_algo_objects
  (v : gmap string (PerformancePeriod Transaction Order)) (self : Algo) : Algo :=
mkAlgo (frame_stats self) (current_day self) (perf_tracker self)
       (recorded_vars self) (pnl_stats self) (custom_signals_stats self)
       (exposure_stats self) (stats_output self) v (daily_perf self)
       (uploads self).

Definition set_daily_perf (v : gmap string Stats) (self : Algo) : Algo :=
mkAlgo (frame_stats self) (current_day self) (perf_tracker self)
       (recorded_vars self) (pnl_stats self) (custom_signals_stats self)
       (exposure_stats self) (stats_output self) (algo_objects self) v
       (uploads self).

Definition set_uploads (v : list (string * option string)) (self : Algo) : Algo :=
mkAlgo (frame_stats self) (current_day self) (perf_tracker self)
       (recorded_vars self) (pnl_stats self) (custom_signals_stats self)
       (exposure_stats self) (stats_output self) (algo_objects self)
       (daily_perf self) v.

(** [self.prepare_period_stats(start_dt, end_dt)] *)
Definition period_stats_of (self : Algo) (start_dt end_dt : Z) : Stats :=
prepare_period_stats transaction_to_dict order_to_dict position_stats
  calc_period_stats get_positions_list (perf_tracker self) (recorded_vars self)
  start_dt end_dt.

(** [ExchangeTradingAlgorithmLive.add_pnl_stats]; the frame saved by
    [save_algo_df] is the one in memory. *)
Definition add_pnl_stats (self : Algo) (period_stats : Stats)
  : Algo * result unit :=
match getitem period_stats "starting_cash" with
| Raise e => (self, Raise e)
| Ok starting =>
    match getitem period_stats "portfolio_value" with
    | Raise e => (self, Raise e)
    | Ok current =>
        match percent_change starting current with
        | Raise e => (self, Raise e)
        | Ok perc =>
            match getitem period_stats "period_close" with
            | Raise e => (self, Raise e)
            | Ok index =>
                (set_pnl_stats (pnl_stats self ++ [(index, perc)])%list self,
                 Ok tt)
            end
        end
    end
end.

(** [ExchangeTradingAlgorithmLive.add_custom_signals_stats] *)
Definition add_custom_signals_stats (self : Algo) (period_stats : Stats)
  : Algo * result unit :=
match getitem period_stats "period_close" with
| Raise e => (self, Raise e)
| Ok index =>
    (set_custom_signals_stats
       (custom_signals_stats self ++ [(index, recorded_vars self)])%list self,
     Ok tt)
end.

(** [ExchangeTradingAlgorithmLive.add_exposure_stats] *)
Definition add_exposure_stats (self : Algo) (period_stats : Stats)
  : Algo * result unit :=
match getitem period_stats "long_exposure" with
| Raise e => (self, Raise e)
| Ok long =>
    match getitem period_stats "ending_cash" with
    | Raise e => (self, Raise e)
    | Ok base =>
        match getitem period_stats "period_close" with
        | Raise e => (self, Raise e)
        | Ok index =>
            (set_exposure_stats
               (exposure_stats self ++ [(index, (long, base))])%list self,
             Ok tt)
        end
    end
end.

(** [ExchangeTradingAlgorithmLive._process_stats], on [data.current_dt];
    the logging of the pretty statistics is left out. *)
Definition _process_stats (self : Algo) (current_dt : Z)
  : Algo * result (option (list string)) :=
let today := floor_day current_dt in
match update_performance (perf_tracker self) with
| (t, Raise e) => (set_perf_tracker t self, Raise e)
| (t, Ok _) =>
    let self := set_perf_tracker t self in
    let frame := period_stats_of self current_dt (current_dt + minute)%Z in
    let self := set_frame_stats (frame_stats self ++ [frame])%list self in
    and_then (add_pnl_stats self frame) (fun self _ =>
    and_then
      (match map_to_list (recorded_vars self) with
       | [] => (self, Ok None)
       | _ :: _ =>
           and_then (add_custom_signals_stats self frame) (fun self _ =>
           (self, Ok (Some (map fst (map_to_list (recorded_vars self))))))
       end) (fun self recorded_cols =>
    and_then (add_exposure_stats self frame) (fun self _ =>
    let daily_stats := period_stats_of self today current_dt in
    (set_daily_perf (<[strftime today := daily_stats]> (daily_perf self)) self,
     Ok recorded_cols))))
end.

(** [ExchangeTradingAlgorithmLive._save_stats_csv] *)
Definition _save_stats_csv (self : Algo) (recorded_cols : option (list string))
  : Algo * result unit :=
match try_except (self, stats_to_algo_folder (frame_stats self) recorded_cols) with
| (self, csv_bytes) =>
    match try_except
            (match stats_output self with
             | Some out =>
                 if str_contains "s3://" out
                 then (set_uploads (uploads self ++ [(out, csv_bytes)])%list self,
                       stats_to_s3 out (frame_stats self) recorded_cols csv_bytes)
                 else (self,
                       Raise (ValueError "Only S3 stats output is supported for now."))
             | None => (self, Ok tt)
             end) with
    | (self, _) => (self, Ok tt)
    end
end.

(** The strategy's [handle_data] callback, when there is one, and
    [validate_account_controls] of the parent class. *)
Variable _handle_data : option (Algo -> Z -> Algo * result unit).
Variable validate_account_controls : Algo -> option Error.

(** The first lines of [ExchangeTradingAlgorithmLive.handle_data] after
    the test of [is_running]: the frames in memory are dropped when a new
    day begins. *)
Definition reset_frame_stats (self : Algo) (current_dt : Z) : Algo :=
let today := floor_day current_dt in
match current_day self with
| Some d => if (today >? d)%Z then set_frame_stats [] self else self
| None => self
end.

(** The lines of [ExchangeTradingAlgorithmLive.handle_data] after the
    totals are logged: the strategy's callback, the account controls,
    the statistics under [try], the checkpoint of the cumulative
    performance, and the current day. *)
Definition handle_data_after_totals (self : Algo) (current_dt : Z)
  : Algo * result unit :=
and_then (match _handle_data with
          | Some callback => callback self current_dt
          | None => (self, Ok tt)
          end) (fun self _ =>
match validate_account_controls self with
| Some e => (self, Raise e)
| None =>
    match try_except
            (and_then (_process_stats self current_dt) _save_stats_csv) with
    | (self, _) =>
        let self :=
          set_algo_objects
            (save_algo_object (algo_objects self) "cumulative_performance"
                              (cumulative_performance (perf_tracker self)))
            self in
        (set_current_day (Some (floor_day current_dt)) self, Ok tt)
    end
end).

End Tick.

End Tick.

Arguments Tick.Algo : clear implicits.

(** The attributes of a tick's state other than the three frames of
    statistics rows. *)
Definition tick_core {Transaction Order} (self : Tick.Algo Transaction Order) :=
(Tick.frame_stats self, Tick.current_day self, Tick.perf_tracker self,
 Tick.recorded_vars self, Tick.stats_output self, Tick.algo_objects self,
 Tick.daily_perf self, Tick.uploads self).

(** ** The clock and the lookup of symbols *)

(** The two clocks of the live algorithm, with what they are built from. *)
Inductive Clock : Type :=
| LiveGraphClock (sessions : list Z) (callback : option Callback)
| SimpleClock (sessions : list Z).

(** The attributes of [ExchangeTradingAlgorithmLive] that the clock reads
    or writes; [sessions] is [sim_params.sessions]. *)
Record ClockAlgo : Type := mkClockAlgo {
  live_graph : option bool;
  _analyze_live : option Callback;
  _clock : option Clock;
  sessions : list Z
}.

(** [ExchangeTradingAlgorithmLive._create_clock] *)
Definition _create_clock (self : ClockAlgo) : ClockAlgo * Clock :=
let made :=
  if match live_graph self with Some true => true | _ => false end
     || is_not_None (_analyze_live self)
  then LiveGraphClock (sessions self) (_analyze_live self)
  else SimpleClock (sessions self) in
(mkClockAlgo (live_graph self) (_analyze_live self) (Some made) (sessions self),
 made).

(** The property [ExchangeTradingAlgorithmLive.clock] *)
Definition clock (self : ClockAlgo) : ClockAlgo * Clock :=
match _clock self with
| None => _create_clock self
| Some c => (self, c)
end.

Module Base.

Section Symbol.

Context {Gateway : Type}.
(** [asset_finder.lookup_symbol(symbol, exchange, data_frequency,
    as_of_date)] *)
Variable lookup_symbol :
  string -> Gateway -> option string -> Z -> result Asset.

(** The attributes of [ExchangeTradingAlgorithmBase] that [symbol] reads;
    [arena] and [end_session] are those of [sim_params]. *)
Record Algo : Type := mkAlgo {
  exchanges : list (string * Gateway);
  _symbol_lookup_date : option Z;
  end_session : Z;
  arena : string;
  data_frequency : string
}.

(** [ExchangeTradingAlgorithmBase.symbol], on the symbol string the
    decorator hands it. *)
Definition symbol (self : Algo) (symbol_str : string)
  (exchange_name : option string) : result Asset :=
let _lookup_date :=
  match _symbol_lookup_date self with
  | Some d => d
  | None => end_session self
  end in
match match exchange_name with
      | None =>
          match exchanges self with
          | [] => Raise (OtherError "IndexError")
          | (_, ex) :: _ => Ok ex
          end
      | Some name =>
          match dict_get name (exchanges self) with
          | Some ex => Ok ex
          | None => Raise (OtherError "KeyError")
          end
      end with
| Raise e => Raise e
| Ok ex =>
    let frequency :=
      if String.eqb (arena self) "backtest" then Some (data_frequency self)
      else None in
    lookup_symbol symbol_str ex frequency _lookup_date
end.

End Symbol.

End Base.

Arguments Base.Algo : clear implicits.

(** ** A gateway to run the definitions on *)

(** A gateway that raises the errors of [failures], one per call, and then
    answers: it reports its cash when the balances are checked and the
    cash it is given otherwise, and prices every position it is handed at
    [reported_price]. *)
Record TestGateway : Type := mkTestGateway {
  reported_cash : float;
  reported_price : float;
  failures : list Error
}.

Definition test_sync_positions (g : TestGateway) (ps : list Position)
  (check_balances : bool) (c : float)
  : TestGateway * result (float * float * list Position) :=
match failures g with
| e :: rest => (mkTestGateway (reported_cash g) (reported_price g) rest, Raise e)
| [] =>
    let ps' := map (fun p => mkPosition (asset p) (amount p) (reported_price g)
                                        (last_sale_date p)) ps in
    (g, Ok (if check_balances then reported_cash g else c,
            float_sum (map (fun p => PrimFloat.mul (amount p) (last_sale_price p)) ps'),
            ps'))
end.

Definition btc_a : Asset := mkAsset "btc_usd" "A".
Definition eth_b : Asset := mkAsset "eth_usd" "B".

Definition test_positions : list (Asset * Position) :=
[ (btc_a, mkPosition btc_a 25 1 0); (eth_b, mkPosition eth_b 5 3 0) ].

Definition test_algo (simulate : option bool) (exs : list (string * TestGateway))
  : Algo TestGateway :=
mkAlgo exs simulate default_attempts true true
       (mkPortfolio 7 test_positions)
       (list_to_map test_positions)
       (Some tt) [] [("2018-01-01", ∅)] [].

Definition gateway_A : TestGateway := mkTestGateway 100 2 [].
Definition gateway_B : TestGateway := mkTestGateway 20 1 [].

(** Exchange B refuses the credentials: an error that is not retried. *)
Definition gateway_B_refusing : TestGateway :=
mkTestGateway 20 1 [OtherError "AuthenticationError"].

(** Exchange A times out twice before it answers. *)
Definition gateway_A_flaky : TestGateway :=
mkTestGateway 100 2 [ExchangeRequestError "timeout"; ExchangeRequestError "timeout"].

(** A rest of the tick that does nothing. *)
Definition test_rest (self : Algo TestGateway) : Algo TestGateway * result unit :=
(self, Ok tt).

(** A saved cumulative performance, a new tracker and a fresh process. *)
Definition saved_performance : PerformancePeriod unit unit :=
mkPerformancePeriod 1000 0 0 875.5 120 124.5 (-124.5) 0 0
  (list_to_map test_positions) [] [].

Definition cold_period : PerformancePeriod unit unit :=
mkPerformancePeriod 1000 0 0 1000 0 0 0 0 0 ∅ [] [].

Definition cold_tracker : PerformanceTracker unit unit :=
mkPerformanceTracker 0 86400 1000 0 cold_period cold_period ∅.

Definition fresh_process (folder : gmap string (PerformancePeriod unit unit))
  : Startup unit unit :=
mkStartup None None false folder.

(** A tracker whose period has a trade at time 10 and one at time 70. *)
Definition txn_row (n : Z) : Row := {["amount" := SInt n]}.

Definition two_trades_period : PerformancePeriod Z unit :=
mkPerformancePeriod 1000 0 0 1000 0 0 0 0 0 ∅ [(10, [3]); (70, [4])]%Z [].

Definition two_trades_tracker : PerformanceTracker Z unit :=
mkPerformanceTracker 0 86400 1000 0 two_trades_period two_trades_period ∅.

Definition test_stats (recorded_vars : Stats) (start_dt end_dt : Z) : Stats :=
prepare_period_stats txn_row (fun _ : unit => ∅)
  (fun _ => mkPositionStats 0 0 0 0 0 0) (fun _ _ => mkPeriodStats 0 0)
  (fun _ => []) two_trades_tracker recorded_vars start_dt end_dt.

(** The order methods of the test gateway: it raises its pending
    failures first; then it has no open order, knows every order by its
    id under the status "open", and cancels what it is asked to. *)
Definition test_fail_or {T} (g : TestGateway) (answer : T)
  : TestGateway * result T :=
match failures g with
| e :: rest => (mkTestGateway (reported_cash g) (reported_price g) rest, Raise e)
| [] => (g, Ok answer)
end.

Definition test_get_open_orders (g : TestGateway) (a : option Asset)
  : TestGateway * result (list (string * string)) :=
test_fail_or g [].

Definition test_get_order (g : TestGateway) (oid : string)
  : TestGateway * result (string * string) :=
test_fail_or g (oid, "open").

Definition test_cancel_order (g : TestGateway) (oid : string)
  : TestGateway * result unit :=
test_fail_or g tt.

(** A tick on the tracker with two trades: the performance update
    changes nothing, the writers succeed, every day is printed alike, and
    there is no callback and no account control.  The percent change is
    either zero or fails on a starting cash of zero. *)
Definition test_percent_change (fails : bool) (starting current : StatValue)
  : result float :=
if fails then Raise (OtherError "ZeroDivisionError") else Ok 0%float.

(** A new tracker for a restart on trades that are integers. *)
Definition cold_tracker0 : PerformanceTracker Z unit :=
mkPerformanceTracker 0 86400 1000 0
  (mkPerformancePeriod 1000 0 0 1000 0 0 0 0 0 ∅ [] [])
  (mkPerformancePeriod 1000 0 0 1000 0 0 0 0 0 ∅ [] []) ∅.

Definition test_tick : Tick.Algo Z unit :=
Tick.mkAlgo [] (Some 0%Z) two_trades_tracker ∅ [] [] [] (Some "s3://bucket")
            ∅ ∅ [].

Definition test_process_stats (fails : bool) (self : Tick.Algo Z unit)
  (current_dt : Z) : Tick.Algo Z unit * result (option (list string)) :=
Tick._process_stats txn_row (fun _ : unit => ∅)
  (fun _ => mkPositionStats 0 0 0 0 0 0) (fun _ _ => mkPeriodStats 0 0)
  (fun _ => []) (fun t => (t, Ok tt)) (test_percent_change fails)
  (fun _ => "2018-01-01") self current_dt.

Definition test_after_totals (fails : bool) (self : Tick.Algo Z unit)
  (current_dt : Z) : Tick.Algo Z unit * result unit :=
Tick.handle_data_after_totals txn_row (fun _ : unit => ∅)
  (fun _ => mkPositionStats 0 0 0 0 0 0) (fun _ _ => mkPeriodStats 0 0)
  (fun _ => []) (fun t => (t, Ok tt)) (test_percent_change fails)
  (fun _ _ => Ok "csv") (fun _ _ _ _ => Ok tt) (fun _ => "2018-01-01")
  None (fun _ => None) self current_dt.


(** Daily files that are read back without an error. *)
Definition readable_files : list (string * Stats) -> option Error :=
fun _ => None.

(** The folder of the daily files is not there: [listdir] raises. *)
Definition missing_folder : list (string * Stats) -> option Error :=
fun _ => Some (OtherError "OSError").

(** An analysis that does not raise. *)
Definition quiet_analysis : list Stats -> option Error :=
fun _ => None.

(** * Properties *)

(** ** Order parameters *)

(** C9: an order request whose stop price is truthy is refused by the
    conversion with [OrderTypeNotSupported] for the type "stop", as its
    first check, whatever the limit price and the style; and
    [_calculate_order] then ends in an error, that of the parent's
    validation or this one, so no style is returned for an order to be
    sent with. *)
Theorem stop_price_is_refused_first
  (limit_price stop_price : option float) (style : option ExecutionStyle) :
  truthy stop_price = true ->
  __convert_order_params_for_blotter limit_price stop_price style
    = Raise (OrderTypeNotSupported "stop")
  /\ forall (AssetT : Type) validate_order_params (a : AssetT) (amt : float),
       _calculate_order validate_order_params a amt limit_price stop_price style
       = match validate_order_params a amt limit_price stop_price style with
         | Some e => Raise e
         | None => Raise (OrderTypeNotSupported "stop")
         end.
Proof.
intros Hstop.
assert (Hconv : __convert_order_params_for_blotter limit_price stop_price style
                = Raise (OrderTypeNotSupported "stop")).
{ unfold __convert_order_params_for_blotter. rewrite Hstop. reflexivity. }
split; [exact Hconv|].
intros AssetT validate a amt. unfold _calculate_order.
destruct (validate a amt limit_price stop_price style); [reflexivity|].
rewrite Hconv. reflexivity.
Qed.

Lemma stop_price_is_refused_first_witness :
  __convert_order_params_for_blotter (Some 10%float) (Some 9.5%float)
                                     (Some MarketOrder)
  = Raise (OrderTypeNotSupported "stop").
Proof.
exact (proj1 (stop_price_is_refused_first (Some 10%float) (Some 9.5%float)
                (Some MarketOrder) eq_refl)).
Defined.

(** C10: with a falsy stop price, a style object is never accepted: the
    conversion raises [ValueError] when a limit price is given as well,
    and otherwise [OrderTypeNotSupported] with the class name of the
    style, for [MarketOrder] and [ExchangeLimitOrder] too, since the test
    asks the style to be an instance of both classes.  So no call with a
    style returns, and a limit order comes out only of a call without
    style whose limit price is truthy. *)
Theorem style_object_is_never_accepted
  (limit_price stop_price : option float) (st : ExecutionStyle) :
  truthy stop_price = false ->
  __convert_order_params_for_blotter limit_price stop_price (Some st)
    = (if is_not_None limit_price
       then Raise (ValueError style_and_limit_msg)
       else Raise (OrderTypeNotSupported (style_class_name st)))
  /\ (forall l s st' r,
        __convert_order_params_for_blotter l s (Some st') <> Ok r)
  /\ (forall l s style p,
        __convert_order_params_for_blotter l s style = Ok (ExchangeLimitOrder p) ->
        style = None /\ l = Some p /\ float_truthy p = true).
Proof.
intros Hstop. split; [|split].
- unfold __convert_order_params_for_blotter. rewrite Hstop.
  destruct (is_not_None limit_price); [reflexivity|].
  destruct st; reflexivity.
- intros l s st' r. unfold __convert_order_params_for_blotter.
  destruct (truthy s); [discriminate|].
  destruct (is_not_None l); [discriminate|].
  destruct st'; discriminate.
- intros l s style p. unfold __convert_order_params_for_blotter.
  destruct (truthy s); [discriminate|].
  destruct style as [st'|].
  + destruct (is_not_None l); [discriminate|]. destruct st'; discriminate.
  + destruct l as [q|]; [|discriminate].
    destruct (float_truthy q) eqn:Hq; [|discriminate].
    intros H. injection H as ->. auto.
Qed.

Lemma style_object_is_never_accepted_witness :
  __convert_order_params_for_blotter None (Some 0%float)
                                     (Some (ExchangeLimitOrder 10%float))
  = Raise (OrderTypeNotSupported "ExchangeLimitOrder").
Proof.
exact (proj1 (style_object_is_never_accepted None (Some 0%float)
                (ExchangeLimitOrder 10%float) eq_refl)).
Defined.

(** ** Period statistics *)

Lemma in_window_spec (start_dt end_dt date : Z) :
  in_window start_dt end_dt date = true <-> (start_dt <= date < end_dt)%Z.
Proof. unfold in_window. rewrite andb_true_iff, Z.leb_le, Z.ltb_lt. tauto. Qed.

Lemma dict_get_In {K V} `{EqDecision K} (k : K) (d : list (K * V)) (v : V) :
  dict_get k d = Some v -> In (k, v) d.
Proof.
induction d as [|[k' v'] d IH]; simpl; [discriminate|].
destruct (decide (k' = k)) as [->|_].
- intros [= ->]. now left.
- intros H'. right. now apply IH.
Qed.

Section StatsFacts.

Context {Transaction Order : Type}.
Variable transaction_to_dict : Transaction -> Row.
Variable order_to_dict : Order -> Row.
Variable position_stats : Ledger -> PositionStats.
Variable calc_period_stats : PositionStats -> float -> PeriodStats.
Variable get_positions_list : Ledger -> list Row.

Lemma window_transactions_In (start_dt end_dt : Z)
  (processed : list (Z * list Transaction)) (row : Row) :
  In row (window_transactions transaction_to_dict start_dt end_dt processed) <->
  exists date ts t,
    In (date, ts) processed /\ (start_dt <= date < end_dt)%Z /\ In t ts
    /\ row = transaction_to_dict t.
Proof.
unfold window_transactions. rewrite in_flat_map. split.
- intros ([date ts] & Hin & Hrow). simpl in Hrow.
  destruct (in_window start_dt end_dt date) eqn:Hw; [|contradiction].
  apply in_map_iff in Hrow as (t & <- & Ht).
  exists date, ts, t. rewrite <- in_window_spec. auto.
- intros (date & ts & t & Hin & Hw & Ht & ->).
  exists (date, ts). split; [assumption|]. simpl.
  apply in_window_spec in Hw. rewrite Hw. now apply in_map.
Qed.

Lemma window_orders_In (start_dt end_dt : Z)
  (by_modified : list (Z * list (string * Order))) (row : Row) :
  In row (window_orders order_to_dict start_dt end_dt by_modified) ->
  exists date os k o,
    In (date, os) by_modified /\ (start_dt <= date < end_dt)%Z /\ In (k, o) os
    /\ row = order_to_dict o.
Proof.
unfold window_orders. rewrite in_flat_map.
intros ([date os] & Hin & Hrow). simpl in Hrow.
destruct (in_window start_dt end_dt date) eqn:Hw; [|contradiction].
apply list_elem_of_In, list_elem_of_omap in Hrow as (k & _ & Hk).
destruct (dict_get k os) as [o|] eqn:Hget; [|discriminate].
injection Hk as <-.
exists date, os, k, o. rewrite <- in_window_spec.
eauto using dict_get_In.
Qed.

Lemma window_transactions_nil (start_dt end_dt : Z)
  (processed : list (Z * list Transaction)) :
  (forall date ts, In (date, ts) processed ->
                   (start_dt <= date < end_dt)%Z -> ts = []) ->
  window_transactions transaction_to_dict start_dt end_dt processed = [].
Proof.
intros Hnone. destruct (window_transactions _ _ _ _) as [|row rows] eqn:E;
  [reflexivity|].
assert (Hrow : In row (window_transactions transaction_to_dict start_dt end_dt
                                           processed))
  by (rewrite E; now left).
apply window_transactions_In in Hrow as (date & ts & t & Hin & Hw & Ht & _).
rewrite (Hnone date ts Hin Hw) in Ht. contradiction.
Qed.

Lemma window_orders_nil (start_dt end_dt : Z)
  (by_modified : list (Z * list (string * Order))) :
  (forall date os, In (date, os) by_modified ->
                   (start_dt <= date < end_dt)%Z -> os = []) ->
  window_orders order_to_dict start_dt end_dt by_modified = [].
Proof.
intros Hnone. destruct (window_orders _ _ _ _) as [|row rows] eqn:E;
  [reflexivity|].
assert (Hrow : In row (window_orders order_to_dict start_dt end_dt by_modified))
  by (rewrite E; now left).
apply window_orders_In in Hrow as (date & os & k & o & Hin & Hw & Ho & _).
rewrite (Hnone date os Hin Hw) in Ho. contradiction.
Qed.

(** C8: the dict of [prepare_period_stats] always has the keys
    'transactions' and 'orders', bound to lists: the rows of exactly the
    processed transactions whose date lies in [start_dt, end_dt), and rows
    of modified orders whose date lies there.  When the window holds no
    transaction, respectively no order, the list is empty, and the key is
    still there. *)
Theorem period_stats_lists_present_and_windowed
  (perf_tracker : PerformanceTracker Transaction Order) (recorded_vars : Stats)
  (start_dt end_dt : Z) :
  let stats := prepare_period_stats transaction_to_dict order_to_dict
                 position_stats calc_period_stats get_positions_list
                 perf_tracker recorded_vars start_dt end_dt in
  let period := todays_performance perf_tracker in
  exists txs ords : list Row,
    stats !! "transactions" = Some (VRows txs)
    /\ stats !! "orders" = Some (VRows ords)
    /\ (forall row, In row txs <->
          exists date ts t,
            In (date, ts) (processed_transactions period)
            /\ (start_dt <= date < end_dt)%Z /\ In t ts
            /\ row = transaction_to_dict t)
    /\ (forall row, In row ords ->
          exists date os k o,
            In (date, os) (orders_by_modified period)
            /\ (start_dt <= date < end_dt)%Z /\ In (k, o) os
            /\ row = order_to_dict o)
    /\ ((forall date ts, In (date, ts) (processed_transactions period) ->
                         (start_dt <= date < end_dt)%Z -> ts = []) ->
        txs = [])
    /\ ((forall date os, In (date, os) (orders_by_modified period) ->
                         (start_dt <= date < end_dt)%Z -> os = []) ->
        ords = []).
Proof.
intros stats period.
exists (window_transactions transaction_to_dict start_dt end_dt
          (processed_transactions period)),
       (window_orders order_to_dict start_dt end_dt (orders_by_modified period)).
repeat split.
- subst stats. unfold prepare_period_stats.
  rewrite lookup_insert_ne by discriminate. now rewrite lookup_insert_eq.
- subst stats. unfold prepare_period_stats. now rewrite lookup_insert_eq.
- now apply window_transactions_In.
- now apply window_transactions_In.
- apply window_orders_In.
- apply window_transactions_nil.
- apply window_orders_nil.
Qed.

End StatsFacts.

(** ** Portfolio synchronisation *)

Section LiveFacts.

Context {Gateway : Type}.
Variable sync_positions :
  Gateway -> list Position -> bool -> float ->
  Gateway * result (float * float * list Position).
Variable rest_of_handle_data : Algo Gateway -> Algo Gateway * result unit.

Lemma sync_exchanges_totals (self : Algo Gateway)
  (todo : list (string * Gateway)) (reports : list (float * float)) :
  Forall2 (reports_to sync_positions self) todo reports ->
  forall (t : Ledger) (total_cash total_positions_value : float),
    snd (sync_exchanges sync_positions (check_balances_of self)
           (cash (portfolio self)) (positions (portfolio self))
           (group_assets_by_exchange (dict_keys (positions (portfolio self))))
           todo t total_cash total_positions_value)
    = Ok (fold_left PrimFloat.add (map fst reports) total_cash,
          fold_left PrimFloat.add (map snd reports) total_positions_value).
Proof.
induction 1 as [|[name ex] [c pv] todo reports (ex' & ps' & Hcall) _ IH];
  intros t tc tpv; simpl; [reflexivity|].
unfold answers_with, exchange_positions_of in Hcall. simpl in Hcall.
rewrite Hcall.
specialize (IH (apply_positions t ps') (PrimFloat.add tc c) (PrimFloat.add tpv pv)).
destruct (sync_exchanges _ _ _ _ _ _ _ _ _) as [[rest' t''] r].
exact IH.
Qed.

Lemma synchronize_portfolio_portfolio (self : Algo Gateway) :
  portfolio (fst (synchronize_portfolio sync_positions self)) = portfolio self.
Proof.
unfold synchronize_portfolio.
destruct (sync_exchanges _ _ _ _ _ _ _ _ _) as [[exs t] [[tc tpv]|e]];
  [destruct (negb _)|]; reflexivity.
Qed.

Lemma synchronize_portfolio_result (self : Algo Gateway) :
  snd (synchronize_portfolio sync_positions self)
  = match snd (sync_exchanges sync_positions (check_balances_of self)
                 (cash (portfolio self)) (positions (portfolio self))
                 (group_assets_by_exchange (dict_keys (positions (portfolio self))))
                 (exchanges self) (tracker self) 0%float 0%float) with
    | Ok (total_cash, total_positions_value) =>
        Ok (if check_balances_of self then total_cash else cash (portfolio self),
            total_positions_value)
    | Raise e => Raise e
    end.
Proof.
unfold synchronize_portfolio.
destruct (sync_exchanges _ _ _ _ _ _ _ _ _) as [[exs t] [[tc tpv]|e]]; simpl;
  [destruct (check_balances_of self)|]; reflexivity.
Qed.

(** C1: when the balances are checked and every configured exchange
    answers its call, the totals [synchronize_portfolio] returns are the
    sum of the cash the exchanges reported and the sum of the positions
    values they reported, added in the order of the exchanges. *)
Theorem totals_are_sums_of_exchange_reports (self : Algo Gateway)
  (reports : list (float * float)) :
  check_balances_of self = true ->
  Forall2 (reports_to sync_positions self) (exchanges self) reports ->
  snd (synchronize_portfolio sync_positions self)
  = Ok (float_sum (map fst reports), float_sum (map snd reports)).
Proof.
intros Hcb Hall. rewrite synchronize_portfolio_result.
rewrite (sync_exchanges_totals self _ _ Hall), Hcb. reflexivity.
Qed.

(** C2: with simulated orders the balances are not checked; the cash
    [synchronize_portfolio] returns is the portfolio's own cash whenever
    it returns, it does return it when the exchanges answer, whatever
    cash they report, and the portfolio, its cash included, is what it
    was before the call, also when the call raises. *)
Theorem simulated_orders_keep_portfolio_cash (self : Algo Gateway) :
  simulate_orders self = Some true ->
  portfolio (fst (synchronize_portfolio sync_positions self)) = portfolio self
  /\ (forall total_cash total_positions_value,
        snd (synchronize_portfolio sync_positions self)
        = Ok (total_cash, total_positions_value) ->
        total_cash = cash (portfolio self))
  /\ (forall reports,
        Forall2 (reports_to sync_positions self) (exchanges self) reports ->
        snd (synchronize_portfolio sync_positions self)
        = Ok (cash (portfolio self), float_sum (map snd reports))).
Proof.
intros Hsim.
assert (Hcb : check_balances_of self = false)
  by (unfold check_balances_of; now rewrite Hsim).
split; [apply synchronize_portfolio_portfolio|]. split.
- intros tc tpv. rewrite synchronize_portfolio_result, Hcb.
  destruct (snd (sync_exchanges _ _ _ _ _ _ _ _ _)) as [[tc' tpv']|e];
    [|discriminate].
  now intros [= <- _].
- intros reports Hall. rewrite synchronize_portfolio_result.
  rewrite (sync_exchanges_totals self _ _ Hall), Hcb. reflexivity.
Qed.

(** The loop over a run of exchanges that all answer, followed by the
    rest of the loop. *)
Lemma sync_exchanges_app (self : Algo Gateway)
  (before : list (string * Gateway))
  (outs : list (Gateway * (float * float * list Position))) :
  Forall2 (answers_with sync_positions self) before outs ->
  forall (rest : list (string * Gateway)) (t : Ledger)
         (total_cash total_positions_value : float),
    sync_exchanges sync_positions (check_balances_of self)
      (cash (portfolio self)) (positions (portfolio self))
      (group_assets_by_exchange (dict_keys (positions (portfolio self))))
      (before ++ rest) t total_cash total_positions_value
    = match sync_exchanges sync_positions (check_balances_of self)
              (cash (portfolio self)) (positions (portfolio self))
              (group_assets_by_exchange (dict_keys (positions (portfolio self))))
              rest
              (fold_left apply_positions (map (fun out => out.2.2) outs) t)
              (fold_left PrimFloat.add (map (fun out => out.2.1.1) outs) total_cash)
              (fold_left PrimFloat.add (map (fun out => out.2.1.2) outs)
                         total_positions_value) with
      | (rest', t', r) =>
          ((zip_with (fun ex out => (ex.1, out.1)) before outs ++ rest')%list, t', r)
      end.
Proof.
induction 1 as [|[name ex] [ex' [[c pv] ps']] before outs Hcall _ IH];
  intros rest t tc tpv; simpl.
- now destruct (sync_exchanges _ _ _ _ _ _ _ _ _) as [[rest' t'] r].
- unfold answers_with, exchange_positions_of in Hcall. simpl in Hcall.
  rewrite Hcall, IH.
  now destruct (sync_exchanges _ _ _ _ _ _ _ _ _) as [[rest' t'] r].
Qed.

(** C3, as the code has it: when the exchanges before the exchange
    [name] answer and [name] raises [e], [synchronize_portfolio] raises
    [e]; the ledger then holds the merges of the exchanges before [name],
    in their order, and nothing of [name] or of the exchanges after it,
    which are not called. *)
Theorem fatal_error_keeps_earlier_merges (self : Algo Gateway)
  (before after : list (string * Gateway)) (name : string) (ex ex' : Gateway)
  (outs : list (Gateway * (float * float * list Position))) (e : Error) :
  exchanges self = (before ++ (name, ex) :: after)%list ->
  Forall2 (answers_with sync_positions self) before outs ->
  sync_positions ex (exchange_positions_of self name) (check_balances_of self)
                 (cash (portfolio self)) = (ex', Raise e) ->
  synchronize_portfolio sync_positions self
  = (set_tracker
       (fold_left apply_positions (map (fun out => out.2.2) outs) (tracker self))
       (set_exchanges
          (zip_with (fun ex out => (ex.1, out.1)) before outs
           ++ (name, ex') :: after)%list self),
     Raise e).
Proof.
intros Hexs Hbefore Hfail. unfold synchronize_portfolio.
rewrite Hexs, (sync_exchanges_app self before outs Hbefore). simpl.
unfold exchange_positions_of in Hfail. rewrite Hfail. reflexivity.
Qed.

Lemma group_assets_fold (assets : list Asset) :
  forall (groups : gmap string (list Asset)) (name : string),
    default [] (fold_left group_asset assets groups !! name)
    = (default [] (groups !! name)
       ++ filter (fun a => exchange a = name) assets)%list.
Proof.
induction assets as [|a assets IH]; intros groups name; simpl.
- now rewrite app_nil_r.
- rewrite IH. unfold group_asset.
  destruct (decide (exchange a = name)) as [<-|Hne].
  + rewrite lookup_insert_eq, filter_cons_True by reflexivity. simpl.
    now rewrite <- app_assoc.
  + now rewrite lookup_insert_ne, filter_cons_False by assumption.
Qed.

Lemma group_assets_by_exchange_lookup (assets : list Asset) (name : string) :
  default [] (group_assets_by_exchange assets !! name)
  = filter (fun a => exchange a = name) assets.
Proof.
unfold group_assets_by_exchange. rewrite group_assets_fold.
now rewrite lookup_empty.
Qed.

Lemma dict_get_key (pos : list (Asset * Position)) (a : Asset) :
  keyed_by_asset pos -> In a (dict_keys pos) ->
  exists p, dict_get a pos = Some p /\ asset p = a.
Proof.
induction 1 as [|[k p] pos Hk _ IH]; simpl; [contradiction|].
intros Hin. destruct (decide (k = a)) as [<-|Hne].
- exists p. auto.
- destruct Hin as [Heq|Hin]; [contradiction|]. now apply IH.
Qed.

Lemma positions_of_assets (pos : list (Asset * Position)) (assets : list Asset) :
  keyed_by_asset pos ->
  (forall a, In a assets -> In a (dict_keys pos)) ->
  map asset (positions_of pos assets) = assets.
Proof.
intros Hwf. induction assets as [|a assets IH]; intros Hsub; [reflexivity|].
unfold positions_of in *. simpl.
destruct (dict_get_key pos a Hwf) as (p & -> & Hp); [apply Hsub; now left|].
simpl. f_equal; [exact Hp|]. apply IH. intros b Hb. apply Hsub. now right.
Qed.

Lemma exchange_positions_assets (self : Algo Gateway) (name : string) :
  keyed_by_asset (positions (portfolio self)) ->
  map asset (exchange_positions_of self name)
  = filter (fun a => exchange a = name) (dict_keys (positions (portfolio self))).
Proof.
intros Hwf. unfold exchange_positions_of.
rewrite group_assets_by_exchange_lookup.
apply positions_of_assets; [assumption|].
intros a Ha. apply list_elem_of_In, list_elem_of_filter in Ha as [_ Ha].
now apply list_elem_of_In.
Qed.

Lemma apply_positions_lookup (ps : list Position) :
  forall (t : Ledger) (a : Asset),
    apply_positions t ps !! a = t !! a
    \/ exists p, In p ps /\ asset p = a /\ apply_positions t ps !! a = Some p.
Proof.
induction ps as [|p ps IH]; intros t a; [now left|].
unfold apply_positions in *. simpl.
destruct (IH (update_position t (asset p) (amount p) (last_sale_date p)
                              (last_sale_price p)) a)
  as [Hsame|(q & Hq & Ha & Hlook)].
- rewrite Hsame. unfold update_position.
  destruct (decide (asset p = a)) as [Heq|Hne].
  + right. exists p. repeat split; [now left|assumption|].
    rewrite <- Heq, lookup_insert_eq. now destruct p.
  + left. now rewrite lookup_insert_ne.
- right. exists q. repeat split; [now right|assumption|assumption].
Qed.

Lemma synchronize_portfolio_tracker (self : Algo Gateway) :
  tracker (fst (synchronize_portfolio sync_positions self))
  = (sync_exchanges sync_positions (check_balances_of self)
       (cash (portfolio self)) (positions (portfolio self))
       (group_assets_by_exchange (dict_keys (positions (portfolio self))))
       (exchanges self) (tracker self) 0%float 0%float).1.2.
Proof.
unfold synchronize_portfolio.
destruct (sync_exchanges _ _ _ _ _ _ _ _ _) as [[exs t] [[tc tpv]|e]];
  [destruct (negb _)|]; reflexivity.
Qed.

(** What the loop leaves under an asset: what was there, or a position an
    exchange of the asset's own name returned for it. *)
Lemma sync_exchanges_ledger (self : Algo Gateway) (a : Asset) :
  keyed_by_asset (positions (portfolio self)) ->
  keeps_assets sync_positions ->
  forall (todo : list (string * Gateway)) (t : Ledger)
         (total_cash total_positions_value : float),
    let t' := (sync_exchanges sync_positions (check_balances_of self)
                 (cash (portfolio self)) (positions (portfolio self))
                 (group_assets_by_exchange (dict_keys (positions (portfolio self))))
                 todo t total_cash total_positions_value).1.2 in
    t' !! a = t !! a
    \/ exists ex out p,
         In ex todo /\ ex.1 = exchange a
         /\ answers_with sync_positions self ex out
         /\ In p out.2.2 /\ asset p = a /\ t' !! a = Some p.
Proof.
intros Hwf Hkeep todo. induction todo as [|[name ex] todo IH];
  intros t tc tpv; simpl; [now left|].
destruct (sync_positions ex _ _ _) as [ex' [[[c pv] ps']|e]] eqn:Hcall;
  [|now left].
specialize (IH (apply_positions t ps') (PrimFloat.add tc c) (PrimFloat.add tpv pv)).
destruct (sync_exchanges _ _ _ _ _ _ _ _ _) as [[rest' t''] r]. simpl in *.
destruct IH as [Hsame|(ex0 & out & p & Hin & Hname & Hans & Hp & Ha & Hlook)].
- rewrite Hsame.
  destruct (apply_positions_lookup ps' t a) as [Hold|(p & Hp & Ha & Hlook)];
    [now left|].
  right. exists (name, ex), (ex', (c, pv, ps')), p.
  assert (Hassets : map asset ps'
                    = filter (fun b => exchange b = name)
                             (dict_keys (positions (portfolio self)))).
  { rewrite (Hkeep _ _ _ _ _ _ _ _ Hcall).
    rewrite <- (exchange_positions_assets self name Hwf).
    unfold exchange_positions_of. reflexivity. }
  assert (Hex : exchange a = name).
  { assert (Hm : In a (map asset ps')) by (rewrite <- Ha; now apply in_map).
    rewrite Hassets in Hm.
    now apply list_elem_of_In, list_elem_of_filter in Hm as [Hm _]. }
  repeat split; simpl; auto.
- right. exists ex0, out, p. repeat split; auto.
Qed.



(** ** The retried synchronisation of [handle_data] *)

Lemma after_failed_succ {W T : Type} (action : W -> W * result T)
  (sleeptime : Z) (sleep' : Z -> W -> W) (n : nat) (s : W) :
  after_failed action sleeptime sleep' (S n) s
  = after_failed action sleeptime sleep' n (sleep' sleeptime (fst (action s))).
Proof. unfold after_failed. now rewrite Nat.iter_succ_r. Qed.

(** After [k] attempts that fail with retried errors, the retried call
    goes on from the state these attempts and their sleeps lead to, with
    [k] attempts fewer to make. *)
Lemma retry_attempts_after_failed {W T : Type} (action : W -> W * result T)
  (sleeptime : Z) (retry_exceptions : Error -> bool) (sleep' : Z -> W -> W)
  (k : nat) :
  forall (more : nat) (s : W),
    (k <= more)%nat ->
    (forall i, (i < k)%nat ->
       exists e, snd (action (after_failed action sleeptime sleep' i s)) = Raise e
                 /\ retry_exceptions e = true) ->
    retry_attempts action sleeptime retry_exceptions sleep' more s
    = retry_attempts action sleeptime retry_exceptions sleep' (more - k)
        (after_failed action sleeptime sleep' k s).
Proof.
induction k as [|k IH]; intros more s Hle Hfail.
- now rewrite Nat.sub_0_r.
- destruct more as [|more]; [lia|].
  destruct (Hfail O ltac:(lia)) as (e & He & Hretry). simpl in He.
  rewrite after_failed_succ, Nat.sub_succ.
  rewrite <- (IH more (sleep' sleeptime (fst (action s)))); [|lia|].
  + simpl. destruct (action s) as [s' r]. simpl in He. subst r.
    now rewrite Hretry.
  + intros i Hi.
    destruct (Hfail (S i) ltac:(lia)) as (e' & He' & Hretry').
    rewrite after_failed_succ in He'. eauto.
Qed.

Lemma synchronize_portfolio_slept (self : Algo Gateway) :
  slept (fst (synchronize_portfolio sync_positions self)) = slept self.
Proof.
unfold synchronize_portfolio.
destruct (sync_exchanges _ _ _ _ _ _ _ _ _) as [[exs t] [[tc tpv]|e]];
  [destruct (negb _)|]; reflexivity.
Qed.

Lemma after_failed_slept (sleeptime : Z) (k : nat) (self : Algo Gateway) :
  slept (after_failed (synchronize_portfolio sync_positions) sleeptime sleep k self)
  = (slept self ++ repeat sleeptime k)%list.
Proof.
induction k as [|k IH]; simpl; [now rewrite app_nil_r|].
unfold after_failed in *. simpl.
rewrite synchronize_portfolio_slept, IH, <- app_assoc.
now rewrite <- repeat_cons.
Qed.

(** C4: in [handle_data] of a running algorithm whose portfolio needs an
    update, with the retry settings of the constructor, let the first [k]
    attempts of the synchronisation, [k] below 5, fail with an
    [ExchangeRequestError].  Then [k] sleeps of 5 have been made, nothing
    else was slept, and the next attempt decides: its value lets the tick
    go on; an error of another kind is raised at once; an
    [ExchangeRequestError] is retried while fewer than 5 attempts were
    made, and raised by [handle_data] when this was the fifth. *)
Theorem portfolio_sync_is_retried_on_request_errors_only
  (self : Algo Gateway) (k : nat) :
  is_running self = true ->
  portfolio_needs_update self = true ->
  attempts self = default_attempts ->
  (k < 5)%nat ->
  (forall i, (i < k)%nat ->
     exists msg,
       snd (synchronize_portfolio sync_positions
              (after_failed (synchronize_portfolio sync_positions) 5 sleep i self))
       = Raise (ExchangeRequestError msg)) ->
  let s := after_failed (synchronize_portfolio sync_positions) 5 sleep k self in
  let attempt := synchronize_portfolio sync_positions s in
  slept s = (slept self ++ repeat 5%Z k)%list
  /\ retry (synchronize_portfolio sync_positions) 5 is_ExchangeRequestError sleep
           5 self
     = retry_attempts (synchronize_portfolio sync_positions) 5
                      is_ExchangeRequestError sleep (4 - k) s
  /\ (forall v, snd attempt = Ok v ->
        handle_data sync_positions rest_of_handle_data self
        = rest_of_handle_data (set_portfolio_needs_update false (fst attempt)))
  /\ (forall e, snd attempt = Raise e -> is_ExchangeRequestError e = false ->
        handle_data sync_positions rest_of_handle_data self
        = (fst attempt, Raise e))
  /\ (forall e, snd attempt = Raise e -> is_ExchangeRequestError e = true ->
        k = 4%nat ->
        handle_data sync_positions rest_of_handle_data self
        = (fst attempt, Raise e)
        /\ slept (fst attempt) = (slept self ++ [5; 5; 5; 5]%Z)%list).
Proof.
intros Hrun Hneed Hatt Hk Hfail s attempt.
assert (Hretry :
  retry (synchronize_portfolio sync_positions) 5 is_ExchangeRequestError sleep
        5 self
  = retry_attempts (synchronize_portfolio sync_positions) 5
                   is_ExchangeRequestError sleep (4 - k) s).
{ unfold retry. change (Pos.to_nat 5 - 1)%nat with 4%nat.
  apply retry_attempts_after_failed; [lia|].
  intros i Hi. destruct (Hfail i Hi) as (msg & Hmsg). eauto. }
assert (Hhandle :
  handle_data sync_positions rest_of_handle_data self
  = match retry_attempts (synchronize_portfolio sync_positions) 5
            is_ExchangeRequestError sleep (4 - k) s with
    | (self', Returned _) =>
        rest_of_handle_data (set_portfolio_needs_update false self')
    | (self', Propagated e) => (self', Raise e)
    | (self', RetryExhausted e) => (self', Raise e)
    end).
{ unfold handle_data. rewrite Hrun, Hneed, Hatt. simpl negb. cbv iota.
  change (retry_sleeptime default_attempts) with 5%Z.
  change (synchronize_portfolio_attempts default_attempts) with 5%positive.
  now rewrite Hretry. }
split; [apply after_failed_slept|]. split; [exact Hretry|].
subst attempt. split; [|split; [|intros e He Hkind ->; split]].
- intros v Hv. rewrite Hhandle.
  destruct (4 - k)%nat; simpl;
    destruct (synchronize_portfolio sync_positions s) as [s' r];
    simpl in Hv; subst r; reflexivity.
- intros e He Hkind. rewrite Hhandle.
  destruct (4 - k)%nat; simpl;
    destruct (synchronize_portfolio sync_positions s) as [s' r];
    simpl in He; subst r; rewrite Hkind; reflexivity.
- rewrite Hhandle. simpl.
  destruct (synchronize_portfolio sync_positions s) as [s' r].
  simpl in He. subst r. now rewrite Hkind.
- rewrite synchronize_portfolio_slept. apply after_failed_slept.
Qed.

(** ** The interruption signal *)

Variable unreadable : list (string * Stats) -> option Error.
Variable analyze_raises : list Stats -> option Error.

(** C6, as the code has it: [interrupt_algorithm] does not look at
    [is_running], so no signal is ignored: a signal that arrives after
    the shutdown has begun runs the handler like the first.  Every run of
    the handler stops the algorithm.  Without an [analyze] callback it
    exits with code 0.  With one, it reads the daily statistics back and
    calls the analysis on them: when the reading raises, the analysis is
    not run and the exception leaves the handler, with no exit code; when
    the analysis raises, so does the handler; otherwise it exits with
    code 0.  A signal that arrives before the interrupted handler has
    called the analysis leads to one analysis in all; one that arrives
    during the analysis or after it leads to a second analysis.  Only
    [handle_data] looks at [is_running], and does nothing once the
    algorithm is stopped. *)
Theorem no_signal_is_ignored (self : Algo Gateway) (signal signal' : Z)
  (b : bool) :
  let first := signal_handler unreadable analyze_raises self signal in
  let stats := map snd (daily_perf self) in
  signal_handler unreadable analyze_raises (set_is_running b self) signal'
  = first
  /\ is_running (fst first) = false
  /\ (_analyze self = None ->
      first = (set_is_running false self, SystemExit 0))
  /\ (forall e, _analyze self <> None -> unreadable (daily_perf self) = Some e ->
        first = (set_is_running false self, Uncaught e))
  /\ (_analyze self <> None -> unreadable (daily_perf self) = None ->
      analyze_calls (fst first) = (analyze_calls self ++ [stats])%list
      /\ snd first = match analyze_raises stats with
                     | Some e => Uncaught e
                     | None => SystemExit 0
                     end)
  /\ (forall ended,
        _analyze self <> None -> unreadable (daily_perf self) = None ->
        signal_during unreadable analyze_raises Stopped self signal' = Some ended ->
        analyze_calls (fst ended) = (analyze_calls self ++ [stats])%list)
  /\ (forall point ended,
        point <> Stopped ->
        signal_during unreadable analyze_raises point self signal' = Some ended ->
        analyze_calls (fst ended) = (analyze_calls self ++ [stats; stats])%list
        /\ snd ended = match analyze_raises stats with
                       | Some e => Uncaught e
                       | None => SystemExit 0
                       end)
  /\ handle_data sync_positions rest_of_handle_data (fst first)
     = (fst first, Ok tt).
Proof.
  cbv zeta.
  unfold signal_during, signal_handler, interrupt_algorithm, handle_data.
  destruct self as [exs sim att run need pf t an calls dp sl]; simpl.
  split; [reflexivity|].
  split.
  { destruct an; simpl; [|reflexivity].
    destruct (unreadable dp); [reflexivity|].
    destruct (analyze_raises (map snd dp)); reflexivity. }
  split; [intros ->; reflexivity|].
  split; [intros e Han Hread; destruct an; [|congruence]; now rewrite Hread|].
  split.
  { intros Han Hread. destruct an; [|congruence]. rewrite Hread.
    destruct (analyze_raises (map snd dp)); simpl; split; reflexivity. }
  split.
  { intros ended Han Hread [= <-]. destruct an; [|congruence]. simpl.
    rewrite Hread. destruct (analyze_raises (map snd dp)); reflexivity. }
  split.
  { intros point ended Hpoint Hended.
    destruct point; [congruence| |]; simpl in Hended;
      (destruct an; [|discriminate]);
      destruct (unreadable dp) eqn:Hread; try discriminate;
      destruct (analyze_raises (map snd dp)) eqn:Hraise; try discriminate;
      simpl in Hended; rewrite ?Hread, ?Hraise in Hended; simpl in Hended;
      injection Hended as <-; simpl; rewrite <- ?app_assoc; split; reflexivity. }
  destruct an; simpl; [|reflexivity].
  destruct (unreadable dp); [reflexivity|].
  destruct (analyze_raises (map snd dp)); reflexivity.
Qed.

End LiveFacts.

(** ** Start-up from the saved cumulative performance *)

Section StartupFacts.

Context {Transaction Order : Type}.
Variable new_PerformanceTracker : PerformanceTracker Transaction Order.
Variable initialize : Startup Transaction Order -> Startup Transaction Order.

(** C5: on a first call of [get_generator] in a fresh process (no trading
    client, no tracker yet), with an [initialize] that leaves the tracker
    in place, the saved cumulative performance is looked up.  When it is
    found, it becomes the tracker's cumulative performance as it was
    saved, with its ending cash, ending value and positions, and today's
    period starts from its ending cash, exposure and value and shares its
    positions; when nothing is found the tracker is the new one, and the
    start-up goes on all the same.  What was saved under the key is what
    is found there. *)
Theorem startup_resumes_from_saved_performance
  (self : Startup Transaction Order) :
  trading_client self = None ->
  perf_tracker self = None ->
  (forall s, perf_tracker (initialize s) = perf_tracker s) ->
  let self' := get_generator new_PerformanceTracker initialize self in
  (forall perf,
     get_algo_object (algo_objects self) "cumulative_performance" = Some perf ->
     exists t,
       perf_tracker self' = Some t
       /\ cumulative_performance t = perf
       /\ starting_cash (todays_performance t) = ending_cash perf
       /\ starting_value (todays_performance t) = ending_value perf
       /\ starting_exposure (todays_performance t) = ending_exposure perf
       /\ position_tracker (todays_performance t) = position_tracker perf)
  /\ (get_algo_object (algo_objects self) "cumulative_performance" = None ->
      perf_tracker self' = Some new_PerformanceTracker)
  /\ trading_client self' = Some tt
  /\ initialized self' = true
  /\ (forall (folder : gmap string (PerformancePeriod Transaction Order)) perf,
        get_algo_object (save_algo_object folder "cumulative_performance" perf)
                        "cumulative_performance" = Some perf).
Proof.
intros Hclient Htracker Hinit self'. subst self'.
unfold get_generator. rewrite Hclient, Htracker. simpl.
split; [|split; [|split; [|split]]].
- intros perf Hfound. rewrite Hfound.
  exists (resume_from perf new_PerformanceTracker).
  destruct (initialized self); simpl; rewrite ?Hinit; simpl; auto 10.
- intros Hnone. rewrite Hnone.
  destruct (initialized self); simpl; rewrite ?Hinit; reflexivity.
- reflexivity.
- destruct (get_algo_object (algo_objects self) "cumulative_performance");
    destruct (initialized self) eqn:E; simpl; auto.
- intros folder perf. unfold get_algo_object, save_algo_object.
  apply lookup_insert_eq.
Qed.

End StartupFacts.

(** * The properties on the test gateway *)

Lemma test_gateway_keeps_assets : keeps_assets test_sync_positions.
Proof.
intros ex ps cb c ex' c' pv ps'. unfold test_sync_positions.
destruct (failures ex); [|discriminate].
intros [= _ _ _ <-]. rewrite map_map. reflexivity.
Qed.

Lemma test_positions_keyed : keyed_by_asset test_positions.
Proof. repeat constructor. Qed.

(** Two floats that [==] tells apart are different. *)
Lemma float_neq (x y : float) : PrimFloat.eqb x y <> PrimFloat.eqb y y -> x <> y.
Proof. intros Hne ->. now apply Hne. Qed.

(** The spec's scenario: A reports cash 100 and positions worth 50, B cash
    20 and positions worth 5; the totals are 120 and 55. *)
Lemma totals_are_sums_of_exchange_reports_witness :
  snd (synchronize_portfolio test_sync_positions
         (test_algo (Some false) [("A", gateway_A); ("B", gateway_B)]))
  = Ok (120%float, 55%float).
Proof.
apply (totals_are_sums_of_exchange_reports test_sync_positions
         (test_algo (Some false) [("A", gateway_A); ("B", gateway_B)])
         [(100, 50); (20, 5)]%float).
- reflexivity.
- repeat constructor.
  + exists gateway_A, [mkPosition btc_a 25 2 0]. vm_compute. reflexivity.
  + exists gateway_B, [mkPosition eth_b 5 1 0]. vm_compute. reflexivity.
Defined.

(** The same exchanges with simulated orders: the cash returned is the
    portfolio's 7, not the 120 the exchanges would report. *)
Lemma simulated_orders_keep_portfolio_cash_witness :
  snd (synchronize_portfolio test_sync_positions
         (test_algo (Some true) [("A", gateway_A); ("B", gateway_B)]))
  = Ok (7%float, 55%float).
Proof.
destruct (simulated_orders_keep_portfolio_cash test_sync_positions
            (test_algo (Some true) [("A", gateway_A); ("B", gateway_B)])
            eq_refl) as (_ & _ & Hreturns).
apply (Hreturns [(7, 50); (7, 5)]%float).
repeat constructor.
- exists gateway_A, [mkPosition btc_a 25 2 0]. vm_compute. reflexivity.
- exists gateway_B, [mkPosition eth_b 5 1 0]. vm_compute. reflexivity.
Defined.

(** Exchange A answers and its prices are merged, then exchange B raises:
    the call raises, and the ledger no longer holds what it held for the
    asset of A. *)
Lemma fatal_error_after_a_merge_changes_the_ledger :
  snd (synchronize_portfolio test_sync_positions
         (test_algo None [("A", gateway_A); ("B", gateway_B_refusing)]))
  = Raise (OtherError "AuthenticationError")
  /\ tracker (fst (synchronize_portfolio test_sync_positions
                     (test_algo None [("A", gateway_A); ("B", gateway_B_refusing)])))
     !! btc_a
     <> tracker (test_algo None [("A", gateway_A); ("B", gateway_B_refusing)])
        !! btc_a.
Proof.
split; [vm_compute; reflexivity|].
vm_compute. intros Hsame.
assert (Hprice : 2%float = 1%float)
  by exact (f_equal (fun p => from_option last_sale_price 0%float p) Hsame).
revert Hprice. apply float_neq. vm_compute. discriminate.
Qed.

Lemma fatal_error_keeps_earlier_merges_witness :
  synchronize_portfolio test_sync_positions
    (test_algo None [("A", gateway_A); ("B", gateway_B_refusing)])
  = (set_tracker
       (apply_positions (list_to_map test_positions) [mkPosition btc_a 25 2 0])
       (set_exchanges [("A", gateway_A); ("B", gateway_B)]
          (test_algo None [("A", gateway_A); ("B", gateway_B_refusing)])),
     Raise (OtherError "AuthenticationError")).
Proof.
apply (fatal_error_keeps_earlier_merges test_sync_positions
         (test_algo None [("A", gateway_A); ("B", gateway_B_refusing)])
         [("A", gateway_A)] [] "B" gateway_B_refusing gateway_B
         [(gateway_A, (100, 50, [mkPosition btc_a 25 2 0]))%float]).
- reflexivity.
- repeat constructor.
- vm_compute. reflexivity.
Defined.



(** Two time-outs, then an answer: the tick goes on after two sleeps. *)
Lemma portfolio_sync_is_retried_on_request_errors_only_witness :
  handle_data test_sync_positions test_rest
    (test_algo None [("A", gateway_A_flaky)])
  = test_rest
      (set_portfolio_needs_update false
         (fst (synchronize_portfolio test_sync_positions
                 (after_failed (synchronize_portfolio test_sync_positions) 5
                               sleep 2 (test_algo None [("A", gateway_A_flaky)])))))
  /\ slept (after_failed (synchronize_portfolio test_sync_positions) 5 sleep 2
                         (test_algo None [("A", gateway_A_flaky)]))
     = [5; 5]%Z.
Proof.
destruct (portfolio_sync_is_retried_on_request_errors_only test_sync_positions
            test_rest (test_algo None [("A", gateway_A_flaky)]) 2)
  as (Hslept & _ & Hvalue & _).
- reflexivity.
- reflexivity.
- reflexivity.
- lia.
- intros [|[|i]] Hi; [exists "timeout"; vm_compute; reflexivity ..|lia].
- split; [|exact Hslept].
  apply (Hvalue (100, 50)%float). vm_compute. reflexivity.
Defined.

Lemma startup_resumes_from_saved_performance_witness :
  exists t,
    perf_tracker (get_generator cold_tracker id
                    (fresh_process {["cumulative_performance" := saved_performance]}))
    = Some t
    /\ cumulative_performance t = saved_performance
    /\ starting_cash (todays_performance t) = 875.5%float
    /\ starting_value (todays_performance t) = 124.5%float
    /\ starting_exposure (todays_performance t) = 120%float
    /\ position_tracker (todays_performance t) = list_to_map test_positions.
Proof.
apply (proj1 (startup_resumes_from_saved_performance cold_tracker id
                (fresh_process {["cumulative_performance" := saved_performance]})
                eq_refl eq_refl (fun s => eq_refl))
             saved_performance).
reflexivity.
Defined.

(** An algorithm with an [analyze] callback, whose daily files can be
    read and whose analysis does not raise, receives a second signal
    while the analysis of the first is running: the second signal is not
    ignored, and the analysis has been started twice, not once.  With a
    folder of daily files that is not there, the handler does not exit
    with code 0: the error of [listdir] leaves it. *)
Lemma reentrant_signal_runs_the_analysis_again :
  length (analyze_calls (test_algo None [("A", gateway_A)])) = 0%nat
  /\ option_map (fun ended => (length (analyze_calls (fst ended)), snd ended))
       (signal_during readable_files quiet_analysis Analyzing
          (test_algo None [("A", gateway_A)]) 2)
     = Some (2%nat, SystemExit 0)
  /\ option_map (fun ended => length (analyze_calls (fst ended)))
       (signal_during readable_files quiet_analysis Analyzing
          (test_algo None [("A", gateway_A)]) 2)
     <> Some 1%nat
  /\ snd (signal_handler missing_folder quiet_analysis
            (test_algo None [("A", gateway_A)]) 2)
     = Uncaught (OtherError "OSError")
  /\ snd (signal_handler missing_folder quiet_analysis
            (test_algo None [("A", gateway_A)]) 2)
     <> SystemExit 0.
Proof.
split; [reflexivity|].
split; [reflexivity|].
split; [discriminate|].
split; [reflexivity|discriminate].
Qed.

(** A tracker with a transaction at minute 10 and one at minute 70: the
    statistics of the window [0, 60) list the first only, and those of
    the window [20, 60) have both keys with empty lists. *)
Example period_stats_of_a_window :
  let txn (n : Z) : Row := {["amount" := SInt n]} in
  let today : PerformancePeriod Z unit :=
    mkPerformancePeriod 1000 0 0 1000 0 0 0 0 0 ∅ [(10, [3]); (70, [4])]%Z [] in
  let perf_tracker := mkPerformanceTracker 0 86400 1000 0 today today ∅ in
  let stats (start_dt end_dt : Z) : Stats :=
    prepare_period_stats txn (fun _ => ∅)
      (fun _ => mkPositionStats 0 0 0 0 0 0) (fun _ _ => mkPeriodStats 0 0)
      (fun _ => []) perf_tracker ∅ start_dt end_dt in
  stats 0%Z 60%Z !! "transactions" = Some (VRows [txn 3%Z])
  /\ stats 20%Z 60%Z !! "transactions" = Some (VRows [])
  /\ stats 20%Z 60%Z !! "orders" = Some (VRows []).
Proof. vm_compute. repeat split. Qed.

(** * Further properties of the functions above *)

(** ** Order parameters without a style *)

(** X1: without a style object and with a falsy stop price, a falsy
    limit price ([None], or a zero of either sign) gives a market order,
    and nothing is raised on the way; a market order is returned in this
    case only; and what the conversion returns for a truthy limit price
    is the limit order built from that price.  Whether the constructor of
    the limit order accepts the price is the constructor's matter, and
    is not stated here. *)
Theorem conversion_without_style_follows_the_limit_price
  (limit_price stop_price : option float) :
  truthy stop_price = false ->
  (truthy limit_price = false ->
   __convert_order_params_for_blotter limit_price stop_price None
   = Ok MarketOrder)
  /\ (forall st,
        __convert_order_params_for_blotter limit_price stop_price None = Ok st ->
        (st = MarketOrder <-> truthy limit_price = false)
        /\ (truthy limit_price = true ->
            exists p, limit_price = Some p /\ st = ExchangeLimitOrder p)).
Proof.
intros Hstop. unfold __convert_order_params_for_blotter. rewrite Hstop.
destruct limit_price as [p|]; simpl.
- destruct (float_truthy p) eqn:Hp.
  + split; [discriminate|]. intros st [= <-].
    repeat split; try discriminate. eauto.
  + split; [reflexivity|]. intros st [= <-]. repeat split; discriminate.
- split; [reflexivity|]. intros st [= <-]. repeat split; discriminate.
Qed.

Lemma conversion_without_style_follows_the_limit_price_witness :
  __convert_order_params_for_blotter (Some (-0)%float) None None = Ok MarketOrder.
Proof.
exact (proj1 (conversion_without_style_follows_the_limit_price
                (Some (-0)%float) None eq_refl) eq_refl).
Defined.

(** ** Period statistics: precedence and adjacent windows *)

Section MoreStatsFacts.

Context {Transaction Order : Type}.
Variable transaction_to_dict : Transaction -> Row.
Variable order_to_dict : Order -> Row.
Variable position_stats : Ledger -> PositionStats.
Variable calc_period_stats : PositionStats -> float -> PeriodStats.
Variable get_positions_list : Ledger -> list Row.

Lemma prepare_period_stats_transactions
  (perf_tracker : PerformanceTracker Transaction Order) (recorded_vars : Stats)
  (start_dt end_dt : Z) :
  prepare_period_stats transaction_to_dict order_to_dict position_stats
    calc_period_stats get_positions_list perf_tracker recorded_vars
    start_dt end_dt !! "transactions"
  = Some (VRows (window_transactions transaction_to_dict start_dt end_dt
                   (processed_transactions (todays_performance perf_tracker)))).
Proof.
unfold prepare_period_stats.
rewrite lookup_insert_ne by discriminate. now rewrite lookup_insert_eq.
Qed.

Lemma prepare_period_stats_orders
  (perf_tracker : PerformanceTracker Transaction Order) (recorded_vars : Stats)
  (start_dt end_dt : Z) :
  prepare_period_stats transaction_to_dict order_to_dict position_stats
    calc_period_stats get_positions_list perf_tracker recorded_vars
    start_dt end_dt !! "orders"
  = Some (VRows (window_orders order_to_dict start_dt end_dt
                   (orders_by_modified (todays_performance perf_tracker)))).
Proof. unfold prepare_period_stats. now rewrite lookup_insert_eq. Qed.

(** X2: in the dict of [prepare_period_stats] a recorded variable takes
    the place of any tracker field or risk metric of the same name, a risk
    metric that of a tracker field; but the keys 'positions',
    'transactions' and 'orders' are set last, so no recorded variable or
    risk metric of these names shows. *)
Theorem recorded_variables_override_all_but_the_lists
  (perf_tracker : PerformanceTracker Transaction Order) (recorded_vars : Stats)
  (start_dt end_dt : Z) :
  let stats := prepare_period_stats transaction_to_dict order_to_dict
                 position_stats calc_period_stats get_positions_list
                 perf_tracker recorded_vars start_dt end_dt in
  (forall key v,
     key <> "positions" -> key <> "transactions" -> key <> "orders" ->
     recorded_vars !! key = Some v -> stats !! key = Some v)
  /\ (forall key v,
        key <> "positions" -> key <> "transactions" -> key <> "orders" ->
        recorded_vars !! key = None ->
        cumulative_risk_metrics perf_tracker !! key = Some v ->
        stats !! key = Some v)
  /\ stats !! "positions"
     = Some (VRows (get_positions_list
                      (position_tracker (cumulative_performance perf_tracker))))
  /\ (recorded_vars !! "portfolio_value" = None ->
      cumulative_risk_metrics perf_tracker !! "portfolio_value" = None ->
      stats !! "portfolio_value"
      = Some (VFloat (PrimFloat.add
                        (ending_cash (cumulative_performance perf_tracker))
                        (ending_value (cumulative_performance perf_tracker))))).
Proof.
intros stats. subst stats. unfold prepare_period_stats.
split; [|split; [|split]].
- intros key v Hp Ht Ho Hrec.
  rewrite !lookup_insert_ne by congruence.
  apply lookup_union_Some_l. exact Hrec.
- intros key v Hp Ht Ho Hrec Hrisk.
  rewrite !lookup_insert_ne by congruence.
  rewrite lookup_union_r by exact Hrec.
  apply lookup_union_Some_l. exact Hrisk.
- rewrite !lookup_insert_ne by discriminate. now rewrite lookup_insert_eq.
- intros Hrec Hrisk.
  rewrite !lookup_insert_ne by discriminate.
  rewrite lookup_union_r by exact Hrec.
  rewrite lookup_union_r by exact Hrisk.
  reflexivity.
Qed.

Lemma in_window_split (a b c date : Z) :
  (a <= b <= c)%Z ->
  in_window a c date = in_window a b date || in_window b c date
  /\ in_window a b date && in_window b c date = false.
Proof.
intros Habc. unfold in_window.
destruct (a <=? date)%Z eqn:E1, (date <? b)%Z eqn:E2, (b <=? date)%Z eqn:E3,
         (date <? c)%Z eqn:E4; simpl; split; try reflexivity; lia.
Qed.

Lemma window_transactions_adjacent (a b c : Z)
  (processed : list (Z * list Transaction)) :
  (a <= b <= c)%Z ->
  window_transactions transaction_to_dict a c processed
  ≡ₚ window_transactions transaction_to_dict a b processed
     ++ window_transactions transaction_to_dict b c processed.
Proof.
intros Habc. unfold window_transactions.
induction processed as [|[date ts] processed IH]; simpl; [reflexivity|].
destruct (in_window_split a b c date Habc) as [Hor Hand]. rewrite Hor.
destruct (in_window a b date), (in_window b c date); simpl in *;
  try discriminate.
- rewrite IH, <- app_assoc. reflexivity.
- rewrite IH. apply Permutation_app_swap_app.
- exact IH.
Qed.

(** X3: the statistics of two adjacent windows share no transaction and
    lose none: the transactions listed for [a, c) are those listed for
    [a, b) together with those listed for [b, c), each as often. *)
Theorem adjacent_windows_partition_the_transactions
  (perf_tracker : PerformanceTracker Transaction Order) (recorded_vars : Stats)
  (a b c : Z) :
  (a <= b <= c)%Z ->
  let stats := prepare_period_stats transaction_to_dict order_to_dict
                 position_stats calc_period_stats get_positions_list
                 perf_tracker recorded_vars in
  exists whole first second : list Row,
    stats a c !! "transactions" = Some (VRows whole)
    /\ stats a b !! "transactions" = Some (VRows first)
    /\ stats b c !! "transactions" = Some (VRows second)
    /\ whole ≡ₚ first ++ second
    /\ length whole = (length first + length second)%nat.
Proof.
intros Habc stats. subst stats.
eexists _, _, _. rewrite !prepare_period_stats_transactions.
split; [reflexivity|]. split; [reflexivity|]. split; [reflexivity|].
pose proof (window_transactions_adjacent a b c
              (processed_transactions (todays_performance perf_tracker)) Habc)
  as Hperm.
split; [exact Hperm|]. rewrite Hperm. apply length_app.
Qed.

End MoreStatsFacts.

Lemma adjacent_windows_partition_the_transactions_witness :
  exists whole first second : list Row,
    test_stats ∅ 0 80 !! "transactions" = Some (VRows whole)
    /\ test_stats ∅ 0 20 !! "transactions" = Some (VRows first)
    /\ test_stats ∅ 20 80 !! "transactions" = Some (VRows second)
    /\ whole ≡ₚ first ++ second
    /\ length whole = (length first + length second)%nat.
Proof.
exact (adjacent_windows_partition_the_transactions txn_row (fun _ : unit => ∅)
         (fun _ => mkPositionStats 0 0 0 0 0 0) (fun _ _ => mkPeriodStats 0 0)
         (fun _ => []) two_trades_tracker ∅ 0 20 80 ltac:(lia)).
Defined.

(** ** Portfolio synchronisation: edges and what it leaves alone *)

Section MoreLiveFacts.

Context {Gateway : Type}.
Variable sync_positions :
  Gateway -> list Position -> bool -> float ->
  Gateway * result (float * float * list Position).
Variable rest_of_handle_data : Algo Gateway -> Algo Gateway * result unit.

(** X4: with no exchange configured, [synchronize_portfolio] calls
    nothing and changes nothing; it returns zero cash and zero positions
    value when the balances are checked, and the portfolio's cash with a
    zero positions value with simulated orders. *)
Theorem no_exchange_gives_zero_totals (self : Algo Gateway) :
  exchanges self = [] ->
  synchronize_portfolio sync_positions self
  = (self, Ok (if check_balances_of self then 0%float else cash (portfolio self),
               0%float)).
Proof.
intros Hnone. unfold synchronize_portfolio. rewrite Hnone. simpl.
replace (set_tracker (tracker self) (set_exchanges [] self)) with self
  by (destruct self; simpl in *; now subst).
now destruct (check_balances_of self).
Qed.

(** X5: an exchange that holds none of the portfolio's assets is still
    called, with an empty list of positions, wherever it stands among the
    configured exchanges; when all exchanges answer, what it reports is
    added to the totals at its place, like that of any other exchange. *)
Theorem exchange_without_positions_gets_an_empty_list
  (self : Algo Gateway) (name : string) :
  (forall a, In a (dict_keys (positions (portfolio self))) -> exchange a <> name) ->
  exchange_positions_of self name = []
  /\ forall before after ex ex' c pv ps' reports_before reports_after,
       exchanges self = (before ++ (name, ex) :: after)%list ->
       Forall2 (reports_to sync_positions self) before reports_before ->
       sync_positions ex [] (check_balances_of self) (cash (portfolio self))
       = (ex', Ok (c, pv, ps')) ->
       Forall2 (reports_to sync_positions self) after reports_after ->
       snd (synchronize_portfolio sync_positions self)
       = Ok (if check_balances_of self
             then float_sum (map fst (reports_before ++ (c, pv) :: reports_after))
             else cash (portfolio self),
             float_sum (map snd (reports_before ++ (c, pv) :: reports_after))).
Proof.
intros Hnone.
assert (Hempty : exchange_positions_of self name = []).
{ unfold exchange_positions_of. rewrite group_assets_by_exchange_lookup.
  replace (filter (fun a => exchange a = name)
                  (dict_keys (positions (portfolio self)))) with (@nil Asset);
    [reflexivity|].
  symmetry. induction (dict_keys (positions (portfolio self))) as [|a l IH];
    [reflexivity|].
  rewrite filter_cons_False by (apply Hnone; now left).
  apply IH. intros b Hb. apply Hnone. now right. }
split; [exact Hempty|].
intros before after ex ex' c pv ps' reports_before reports_after
       Hexs Hbefore Hcall Hafter.
assert (Hall : Forall2 (reports_to sync_positions self) (exchanges self)
                       (reports_before ++ (c, pv) :: reports_after)).
{ rewrite Hexs. apply Forall2_app; [exact Hbefore|].
  constructor; [|exact Hafter].
  exists ex', ps'. unfold answers_with. simpl. now rewrite Hempty. }
rewrite (synchronize_portfolio_result sync_positions).
rewrite (sync_exchanges_totals sync_positions self _ _ Hall).
reflexivity.
Qed.

Lemma apply_positions_keeps (ps : list Position) :
  forall (t : Ledger) (a : Asset),
    is_Some (t !! a) -> is_Some (apply_positions t ps !! a).
Proof.
induction ps as [|p ps IH]; intros t a Hsome; [exact Hsome|].
unfold apply_positions in *. simpl. apply IH. unfold update_position.
destruct (decide (asset p = a)) as [<-|Hne].
- rewrite lookup_insert_eq. eauto.
- now rewrite lookup_insert_ne.
Qed.

Lemma sync_exchanges_keeps (cb : bool) (c : float)
  (pos : list (Asset * Position)) (groups : gmap string (list Asset))
  (a : Asset) (todo : list (string * Gateway)) :
  forall (t : Ledger) (tc tpv : float),
    is_Some (t !! a) ->
    is_Some ((sync_exchanges sync_positions cb c pos groups todo t tc tpv).1.2
             !! a).
Proof.
induction todo as [|[name ex] todo IH]; intros t tc tpv Hsome; simpl;
  [exact Hsome|].
destruct (sync_positions ex _ _ _) as [ex' [[[c' pv] ps']|e]]; [|exact Hsome].
specialize (IH (apply_positions t ps') (PrimFloat.add tc c')
               (PrimFloat.add tpv pv) (apply_positions_keeps ps' t a Hsome)).
now destruct (sync_exchanges _ _ _ _ _ _ _ _ _) as [[rest' t''] r].
Qed.

(** X6: whatever the exchanges answer or raise, [synchronize_portfolio]
    never removes a position from the ledger: an asset that has an entry
    before the call has one after it. *)
Theorem synchronize_portfolio_never_drops_a_position
  (self : Algo Gateway) (a : Asset) :
  is_Some (tracker self !! a) ->
  is_Some (tracker (fst (synchronize_portfolio sync_positions self)) !! a).
Proof.
intros Hsome. rewrite (synchronize_portfolio_tracker sync_positions).
now apply sync_exchanges_keeps.
Qed.

(** X7: with the portfolio's positions keyed by their asset and a gateway
    that updates in place, the ledger entries of the assets that are not
    in the portfolio are left as they are, and so are all entries when
    the portfolio holds no position. *)
Theorem assets_outside_the_portfolio_are_left_alone
  (self : Algo Gateway) (a : Asset) :
  keyed_by_asset (positions (portfolio self)) ->
  keeps_assets sync_positions ->
  ~ In a (dict_keys (positions (portfolio self))) ->
  tracker (fst (synchronize_portfolio sync_positions self)) !! a
  = tracker self !! a.
Proof.
intros Hwf Hkeep Hout. rewrite (synchronize_portfolio_tracker sync_positions).
destruct (sync_exchanges_ledger sync_positions self a Hwf Hkeep
            (exchanges self) (tracker self) 0%float 0%float)
  as [Hsame|(ex & out & p & _ & _ & Hans & Hp & Ha & _)]; [exact Hsame|].
exfalso. apply Hout.
assert (Hin : In a (map asset out.2.2)) by (rewrite <- Ha; now apply in_map).
destruct ex as [name ex], out as [ex' [[c pv] ps']].
unfold answers_with in Hans. simpl in *.
rewrite (Hkeep _ _ _ _ _ _ _ _ Hans) in Hin.
rewrite (exchange_positions_assets self name Hwf) in Hin.
apply list_elem_of_In, list_elem_of_filter in Hin as [_ Hin].
now apply list_elem_of_In.
Qed.


End MoreLiveFacts.

Lemma no_exchange_gives_zero_totals_witness :
  synchronize_portfolio test_sync_positions (test_algo (Some true) [])
  = (test_algo (Some true) [], Ok (7%float, 0%float)).
Proof.
exact (no_exchange_gives_zero_totals test_sync_positions
         (test_algo (Some true) []) eq_refl).
Defined.

(** An exchange C, on which the portfolio holds nothing, reporting a cash
    of 30, between the exchanges A and B. *)
Lemma exchange_without_positions_gets_an_empty_list_witness :
  exchange_positions_of
    (test_algo None [("A", gateway_A); ("C", mkTestGateway 30 4 []);
                     ("B", gateway_B)]) "C" = []
  /\ snd (synchronize_portfolio test_sync_positions
            (test_algo None [("A", gateway_A); ("C", mkTestGateway 30 4 []);
                             ("B", gateway_B)]))
     = Ok (150%float, 55%float).
Proof.
destruct (exchange_without_positions_gets_an_empty_list test_sync_positions
            (test_algo None [("A", gateway_A); ("C", mkTestGateway 30 4 []);
                             ("B", gateway_B)]) "C")
  as [Hempty Htotals].
- intros a [<-|[<-|[]]]; discriminate.
- split; [exact Hempty|].
  apply (Htotals [("A", gateway_A)] [("B", gateway_B)] (mkTestGateway 30 4 [])
                 (mkTestGateway 30 4 []) 30%float 0%float []
                 [(100, 50)%float] [(20, 5)%float] eq_refl).
  + repeat constructor.
    exists gateway_A, [mkPosition btc_a 25 2 0]. vm_compute. reflexivity.
  + reflexivity.
  + repeat constructor.
    exists gateway_B, [mkPosition eth_b 5 1 0]. vm_compute. reflexivity.
Defined.

Lemma synchronize_portfolio_never_drops_a_position_witness :
  is_Some (tracker (fst (synchronize_portfolio test_sync_positions
                           (test_algo None [("A", gateway_A);
                                            ("B", gateway_B_refusing)])))
           !! eth_b).
Proof.
apply (synchronize_portfolio_never_drops_a_position test_sync_positions
         (test_algo None [("A", gateway_A); ("B", gateway_B_refusing)]) eth_b).
vm_compute. eauto.
Defined.

Lemma assets_outside_the_portfolio_are_left_alone_witness :
  tracker (fst (synchronize_portfolio test_sync_positions
                  (test_algo None [("A", gateway_A); ("B", gateway_B)])))
  !! mkAsset "ltc_usd" "A"
  = tracker (test_algo None [("A", gateway_A); ("B", gateway_B)])
    !! mkAsset "ltc_usd" "A".
Proof.
apply (assets_outside_the_portfolio_are_left_alone test_sync_positions
         (test_algo None [("A", gateway_A); ("B", gateway_B)])
         (mkAsset "ltc_usd" "A") test_positions_keyed test_gateway_keeps_assets).
intros [H|[H|[]]]; discriminate.
Defined.


(** ** Start-up: repeated calls and an existing tracker *)

Section MoreStartupFacts.

Context {Transaction Order : Type}.
Variable new_PerformanceTracker : PerformanceTracker Transaction Order.
Variable initialize : Startup Transaction Order -> Startup Transaction Order.

(** X9: a second call of [get_generator] changes nothing: the trading
    client of the first call is reused, the saved performance is not
    loaded again and [initialize] is not run again. *)
Theorem get_generator_twice_is_once (self : Startup Transaction Order) :
  get_generator new_PerformanceTracker initialize
    (get_generator new_PerformanceTracker initialize self)
  = get_generator new_PerformanceTracker initialize self.
Proof.
destruct (trading_client self) as [client|] eqn:Hclient.
- assert (Hsame : get_generator new_PerformanceTracker initialize self = self)
    by (unfold get_generator; now rewrite Hclient).
  now rewrite !Hsame.
- assert (Hdone : trading_client
                    (get_generator new_PerformanceTracker initialize self)
                  = Some tt).
  { unfold get_generator. rewrite Hclient.
    now destruct (perf_tracker self). }
  unfold get_generator at 1. now rewrite Hdone.
Qed.

(** X10: the saved performance is only looked at when the algorithm has
    no tracker yet: a tracker that exists is kept as it is, whatever is
    saved under 'cumulative_performance', and an algorithm that is
    initialized is not initialized again. *)
Theorem existing_tracker_is_not_resumed (self : Startup Transaction Order)
  (t : PerformanceTracker Transaction Order) :
  trading_client self = None ->
  perf_tracker self = Some t ->
  (forall s, perf_tracker (initialize s) = perf_tracker s) ->
  perf_tracker (get_generator new_PerformanceTracker initialize self) = Some t
  /\ (initialized self = true ->
      get_generator new_PerformanceTracker initialize self
      = mkStartup (Some tt) (Some t) true (algo_objects self)).
Proof.
intros Hclient Htracker Hinit. unfold get_generator.
rewrite Hclient, Htracker. split.
- destruct (initialized self); simpl; [exact Htracker|].
  now rewrite Hinit.
- intros Hdone. rewrite Hdone. simpl. now rewrite Htracker, Hdone.
Qed.

End MoreStartupFacts.

Lemma existing_tracker_is_not_resumed_witness :
  perf_tracker
    (get_generator cold_tracker id
       (mkStartup None (Some cold_tracker) true
                  {["cumulative_performance" := saved_performance]}))
  = Some cold_tracker.
Proof.
exact (proj1 (existing_tracker_is_not_resumed cold_tracker id
                (mkStartup None (Some cold_tracker) true
                           {["cumulative_performance" := saved_performance]})
                cold_tracker eq_refl eq_refl (fun s => eq_refl))).
Defined.

(** ** The default of [simulate_orders] and the last frame of a day *)

(** X11: after the constructor has settled [simulate_orders], the
    balances are left unchecked by [synchronize_portfolio] exactly when
    simulated orders were asked for, or nothing was said in the backtest
    arena: in any other arena an unset [simulate_orders] means checked
    balances, and an explicit [False] is kept in the backtest arena too. *)
Theorem balances_are_checked_unless_simulated {Gateway} (self : Algo Gateway)
  (given : option bool) (arena : string) :
  simulate_orders self = init_simulate_orders given arena ->
  (check_balances_of self = false
   <-> given = Some true \/ (given = None /\ arena = "backtest")).
Proof.
intros Hinit. unfold check_balances_of. rewrite Hinit.
unfold init_simulate_orders.
destruct given as [[|]|].
- split; [auto|reflexivity].
- split; [discriminate|]. intros [H|[H _]]; discriminate.
- destruct (String.eqb_spec arena "backtest") as [->|Hne].
  + split; [auto|reflexivity].
  + split; [discriminate|]. intros [H|[_ H]]; [discriminate|contradiction].
Qed.

Lemma balances_are_checked_unless_simulated_witness :
  check_balances_of (test_algo None [("A", gateway_A)]) = false
  <-> None = Some true \/ (@None bool = None /\ "live" = "backtest").
Proof.
exact (balances_are_checked_unless_simulated
         (test_algo None [("A", gateway_A)]) None "live" eq_refl).
Defined.

(** X12: [is_last_frame_of_day] holds exactly in the last minute of a day:
    when less than a minute of the day of [current_dt] is left after it;
    this for timestamps before the epoch as well. *)
Theorem last_frame_is_the_last_minute_of_the_day (current_dt : Z) :
  is_last_frame_of_day current_dt = true
  <-> (day - minute <= current_dt mod day)%Z.
Proof.
unfold is_last_frame_of_day, date_of.
destruct (Z.gtb_spec ((current_dt + minute) / day) (current_dt / day))
  as [Hgt|Hle]; unfold day, minute in *.
- split; [intros _|reflexivity].
  Z.to_euclidean_division_equations. lia.
- split; [discriminate|]. intros Hlast. exfalso.
  Z.to_euclidean_division_equations. lia.
Qed.

(** ** Orders on the exchanges *)

Lemma dict_get_set_ne {K V} `{EqDecision K} (k k' : K) (v : V)
  (d : list (K * V)) :
  k <> k' -> dict_get k' (dict_set k v d) = dict_get k' d.
Proof.
intros Hne. induction d as [|[k0 v0] d IH]; simpl.
- destruct (decide (k = k')); [contradiction|reflexivity].
- destruct (decide (k0 = k)) as [->|Hk0]; simpl.
  + destruct (decide (k = k')); [contradiction|reflexivity].
  + destruct (decide (k0 = k')); [reflexivity|exact IH].
Qed.

(** What every attempt and every sleep of a retried call keeps, the
    retried call keeps. *)
Lemma retry_attempts_invariant {W T : Type} (action : W -> W * result T)
  (sleeptime : Z) (retry_exceptions : Error -> bool) (sleep' : Z -> W -> W)
  (P : W -> Prop) :
  (forall s, P s -> P (fst (action s))) ->
  (forall s, P s -> P (sleep' sleeptime s)) ->
  forall (more : nat) (s : W),
    P s ->
    P (fst (retry_attempts action sleeptime retry_exceptions sleep' more s)).
Proof.
intros Haction Hsleep. induction more as [|more IH]; intros s Hs; simpl;
  specialize (Haction s Hs); destruct (action s) as [s' [v|e]]; simpl in *;
  try assumption; destruct (retry_exceptions e); simpl; auto.
Qed.

Lemma retry_first_attempt_returns {W T : Type} (action : W -> W * result T)
  (sleeptime : Z) (retry_exceptions : Error -> bool) (sleep' : Z -> W -> W)
  (attempts' : positive) (s s' : W) (v : T) :
  action s = (s', Ok v) ->
  retry action sleeptime retry_exceptions sleep' attempts' s = (s', Returned v).
Proof.
intros Hok. unfold retry. destruct (Pos.to_nat attempts' - 1)%nat; simpl;
  now rewrite Hok.
Qed.

Lemma retry_first_attempt_propagates {W T : Type} (action : W -> W * result T)
  (sleeptime : Z) (retry_exceptions : Error -> bool) (sleep' : Z -> W -> W)
  (attempts' : positive) (s s' : W) (e : Error) :
  action s = (s', Raise e) -> retry_exceptions e = false ->
  retry action sleeptime retry_exceptions sleep' attempts' s
  = (s', Propagated e).
Proof.
intros Hraise Hkind. unfold retry.
destruct (Pos.to_nat attempts' - 1)%nat; simpl; now rewrite Hraise, Hkind.
Qed.

Section OrderFacts.

Context {Gateway OrderT : Type}.
Variable exchange_get_open_orders :
  Gateway -> option Asset -> Gateway * result (list OrderT).
Variable exchange_get_order : Gateway -> string -> Gateway * result OrderT.
Variable exchange_cancel_order : Gateway -> string -> Gateway * result unit.
Variable order_id : OrderT -> string.

Lemma open_orders_of_all_app (before : list (string * Gateway))
  (outs : list (Gateway * list OrderT)) :
  Forall2 (fun ex out => exchange_get_open_orders ex.2 None = (out.1, Ok out.2))
          before outs ->
  forall (rest : list (string * Gateway)) (open_orders : list (list OrderT)),
    open_orders_of_all exchange_get_open_orders (before ++ rest) open_orders
    = match open_orders_of_all exchange_get_open_orders rest
              (open_orders ++ map snd outs) with
      | (rest', r) =>
          ((zip_with (fun ex out => (ex.1, out.1)) before outs ++ rest')%list, r)
      end.
Proof.
induction 1 as [|[name ex] [ex' orders] before outs Hcall _ IH];
  intros rest open_orders; simpl.
- rewrite app_nil_r.
  now destruct (open_orders_of_all _ rest open_orders) as [rest' r].
- simpl in Hcall. rewrite Hcall, IH, <- app_assoc. simpl.
  now destruct (open_orders_of_all _ rest _) as [rest' r].
Qed.

(** X13: asked without an asset, when every exchange answers,
    [get_open_orders] returns at its first attempt, without sleeping, a
    list with one list of orders per configured exchange, in the order of
    the exchanges and with the empty lists: a list of lists, not a dict
    by asset. *)
Theorem open_orders_are_one_list_per_exchange (self : Algo Gateway)
  (outs : list (Gateway * list OrderT)) :
  Forall2 (fun ex out => exchange_get_open_orders ex.2 None = (out.1, Ok out.2))
          (exchanges self) outs ->
  snd (get_open_orders exchange_get_open_orders None self)
  = Ok (OrdersByExchange (map snd outs))
  /\ length (map snd outs) = length (exchanges self)
  /\ slept (fst (get_open_orders exchange_get_open_orders None self))
     = slept self.
Proof.
intros Hall.
assert (Hfirst : _get_open_orders exchange_get_open_orders None self
                 = (set_exchanges
                      (zip_with (fun ex out => (ex.1, out.1)) (exchanges self) outs)
                      self,
                    Ok (OrdersByExchange (map snd outs)))).
{ unfold _get_open_orders.
  rewrite <- (app_nil_r (exchanges self)) at 1.
  rewrite (open_orders_of_all_app _ _ Hall). simpl. now rewrite app_nil_r. }
split; [|split].
- unfold get_open_orders.
  now rewrite (retry_first_attempt_returns _ _ _ _ _ _ _ _ Hfirst).
- rewrite length_map. symmetry. exact (Forall2_length _ _ _ Hall).
- unfold get_open_orders.
  now rewrite (retry_first_attempt_returns _ _ _ _ _ _ _ _ Hfirst).
Qed.

(** X14: when an exchange raises while the open orders of all exchanges
    are collected, [_get_open_orders] raises that error: the lists
    already collected are lost and the exchanges after it are not
    asked. *)
Theorem open_orders_stop_at_the_first_error (self : Algo Gateway)
  (before after : list (string * Gateway)) (name : string) (ex ex' : Gateway)
  (outs : list (Gateway * list OrderT)) (e : Error) :
  exchanges self = (before ++ (name, ex) :: after)%list ->
  Forall2 (fun ex out => exchange_get_open_orders ex.2 None = (out.1, Ok out.2))
          before outs ->
  exchange_get_open_orders ex None = (ex', Raise e) ->
  _get_open_orders exchange_get_open_orders None self
  = (set_exchanges
       (zip_with (fun ex out => (ex.1, out.1)) before outs
        ++ (name, ex') :: after)%list self,
     Raise e).
Proof.
intros Hexs Hbefore Hfail. unfold _get_open_orders.
rewrite Hexs, (open_orders_of_all_app _ _ Hbefore). simpl.
now rewrite Hfail.
Qed.

(** X15: an exchange name that is not configured is a [KeyError] that
    leaves everything as it is: [get_order] and [cancel_order] raise it
    before any attempt, and [get_open_orders] for an asset of such an
    exchange raises it at its first attempt, without a retry or a sleep. *)
Theorem unknown_exchange_is_a_key_error (self : Algo Gateway)
  (exchange_name : string) :
  dict_get exchange_name (exchanges self) = None ->
  (forall oid,
     get_order exchange_get_order oid exchange_name self
     = (self, Raise (OtherError "KeyError")))
  /\ (forall order_param,
        cancel_order exchange_cancel_order order_id order_param exchange_name self
        = (self, Raise (OtherError "KeyError")))
  /\ (forall a,
        exchange a = exchange_name ->
        get_open_orders exchange_get_open_orders (Some a) self
        = (self, Raise (OtherError "KeyError"))).
Proof.
intros Hmissing. split; [|split].
- intros oid. unfold get_order. now rewrite Hmissing.
- intros order_param. unfold cancel_order. now rewrite Hmissing.
- intros a Ha. unfold get_open_orders.
  rewrite (retry_first_attempt_propagates _ _ _ _ _ self self
             (OtherError "KeyError")); [reflexivity| |reflexivity].
  unfold _get_open_orders, exchange_call. now rewrite Ha, Hmissing.
Qed.

Lemma exchange_call_others {T} (method : Gateway -> Gateway * result T)
  (exchange_name other : string) (self : Algo Gateway) :
  exchange_name <> other ->
  dict_get other (exchanges (fst (exchange_call method exchange_name self)))
  = dict_get other (exchanges self).
Proof.
intros Hne. unfold exchange_call.
destruct (dict_get exchange_name (exchanges self)) as [ex|]; [|reflexivity].
destruct (method ex) as [ex' r]. simpl. now apply dict_get_set_ne.
Qed.

(** X16: [get_order] and [cancel_order] only touch the exchange they
    name: through all attempts and sleeps, every other exchange object is
    left in the state it was in. *)
Theorem orders_touch_only_their_exchange (self : Algo Gateway)
  (exchange_name other : string) :
  exchange_name <> other ->
  (forall oid,
     dict_get other
       (exchanges (fst (get_order exchange_get_order oid exchange_name self)))
     = dict_get other (exchanges self))
  /\ (forall order_param,
        dict_get other
          (exchanges (fst (cancel_order exchange_cancel_order order_id
                             order_param exchange_name self)))
        = dict_get other (exchanges self)).
Proof.
intros Hne.
assert (Hretry : forall T (method : Gateway -> Gateway * result T) attempts',
          dict_get other
            (exchanges
               (fst (raise_outcome
                       (retry (exchange_call method exchange_name)
                              (retry_sleeptime (attempts self))
                              is_ExchangeRequestError sleep attempts' self))))
          = dict_get other (exchanges self)).
{ intros T method attempts'.
  assert (Hinv : dict_get other
            (exchanges
               (fst (retry (exchange_call method exchange_name)
                           (retry_sleeptime (attempts self))
                           is_ExchangeRequestError sleep attempts' self)))
          = dict_get other (exchanges self)).
  { unfold retry.
    apply (retry_attempts_invariant _ _ _ _
             (fun s => dict_get other (exchanges s)
                       = dict_get other (exchanges self))).
    - intros s Hs. now rewrite exchange_call_others.
    - intros s Hs. exact Hs.
    - reflexivity. }
  destruct (retry _ _ _ _ _ _) as [s' [v|e|e]]; exact Hinv. }
split.
- intros oid. unfold get_order.
  destruct (dict_get exchange_name (exchanges self)); [apply Hretry|reflexivity].
- intros order_param. unfold cancel_order.
  destruct (dict_get exchange_name (exchanges self)); [apply Hretry|reflexivity].
Qed.

End OrderFacts.

Lemma open_orders_are_one_list_per_exchange_witness :
  snd (get_open_orders test_get_open_orders None
         (test_algo None [("A", gateway_A); ("B", gateway_B)]))
  = Ok (OrdersByExchange [[]; []]).
Proof.
apply (proj1 (open_orders_are_one_list_per_exchange test_get_open_orders
                (test_algo None [("A", gateway_A); ("B", gateway_B)])
                [(gateway_A, []); (gateway_B, [])]
                ltac:(repeat constructor))).
Defined.

Lemma open_orders_stop_at_the_first_error_witness :
  _get_open_orders test_get_open_orders None
    (test_algo None [("A", gateway_A); ("B", gateway_B_refusing); ("A2", gateway_A_flaky)])
  = (set_exchanges [("A", gateway_A); ("B", gateway_B); ("A2", gateway_A_flaky)]
       (test_algo None [("A", gateway_A); ("B", gateway_B_refusing);
                        ("A2", gateway_A_flaky)]),
     Raise (OtherError "AuthenticationError")).
Proof.
apply (open_orders_stop_at_the_first_error test_get_open_orders
         (test_algo None [("A", gateway_A); ("B", gateway_B_refusing);
                          ("A2", gateway_A_flaky)])
         [("A", gateway_A)] [("A2", gateway_A_flaky)] "B" gateway_B_refusing
         gateway_B [(gateway_A, [])] (OtherError "AuthenticationError")).
- reflexivity.
- repeat constructor.
- reflexivity.
Defined.

Lemma unknown_exchange_is_a_key_error_witness :
  get_order test_get_order "order-7" "C" (test_algo None [("A", gateway_A)])
  = (test_algo None [("A", gateway_A)], Raise (OtherError "KeyError")).
Proof.
apply (proj1 (unknown_exchange_is_a_key_error test_get_open_orders
                test_get_order test_cancel_order (@fst string string)
                (test_algo None [("A", gateway_A)]) "C" eq_refl)).
Defined.

(** Exchange A times out twice on a cancellation: exchange B is as it
    was. *)
Lemma orders_touch_only_their_exchange_witness :
  dict_get "B"
    (exchanges (fst (cancel_order test_cancel_order (@fst string string) (OrderId "order-7") "A"
                       (test_algo None [("A", gateway_A_flaky); ("B", gateway_B)]))))
  = dict_get "B" (exchanges (test_algo None [("A", gateway_A_flaky); ("B", gateway_B)])).
Proof.
apply (proj2 (orders_touch_only_their_exchange test_get_order test_cancel_order
                (@fst string string) (test_algo None [("A", gateway_A_flaky); ("B", gateway_B)])
                "A" "B" ltac:(discriminate))).
Defined.

(** ** The statistics of a live tick *)

Lemma and_then_keeps {W A B} (P : W -> Prop) (step : W * result A)
  (next : W -> A -> W * result B) :
  P (fst step) -> (forall w a, P w -> P (fst (next w a))) ->
  P (fst (and_then step next)).
Proof.
intros Hstep Hnext. destruct step as [w [a|e]]; simpl in *; auto.
Qed.

Lemma try_except_state {W A} (step : W * result A) :
  fst (try_except step) = fst step.
Proof. now destruct step as [w [a|e]]. Qed.

Section TickFacts.

Context {Transaction Order : Type}.
Variable transaction_to_dict : Transaction -> Row.
Variable order_to_dict : Order -> Row.
Variable position_stats : Ledger -> PositionStats.
Variable calc_period_stats : PositionStats -> float -> PeriodStats.
Variable get_positions_list : Ledger -> list Row.
Variable update_performance :
  PerformanceTracker Transaction Order ->
  PerformanceTracker Transaction Order * result unit.
Variable percent_change : StatValue -> StatValue -> result float.
Variable stats_to_algo_folder : list Stats -> option (list string) -> result string.
Variable stats_to_s3 :
  string -> list Stats -> option (list string) -> option string -> result unit.
Variable strftime : Z -> string.
Variable _handle_data :
  option (Tick.Algo Transaction Order -> Z ->
          Tick.Algo Transaction Order * result unit).
Variable validate_account_controls : Tick.Algo Transaction Order -> option Error.

Local Abbreviation prepare :=
  (prepare_period_stats transaction_to_dict order_to_dict position_stats
     calc_period_stats get_positions_list).
Local Abbreviation process_stats :=
  (Tick._process_stats transaction_to_dict order_to_dict position_stats
     calc_period_stats get_positions_list update_performance percent_change
     strftime).
Local Abbreviation save_stats_csv :=
  (Tick._save_stats_csv stats_to_algo_folder stats_to_s3).
Local Abbreviation after_totals :=
  (Tick.handle_data_after_totals transaction_to_dict order_to_dict
     position_stats calc_period_stats get_positions_list update_performance
     percent_change stats_to_algo_folder stats_to_s3 strftime _handle_data
     validate_account_controls).

Lemma add_pnl_stats_core (self : Tick.Algo Transaction Order) (ps : Stats) :
  tick_core (fst (Tick.add_pnl_stats percent_change self ps)) = tick_core self.
Proof.
unfold Tick.add_pnl_stats.
destruct (getitem ps "starting_cash") as [starting|]; [|reflexivity].
destruct (getitem ps "portfolio_value") as [current|]; [|reflexivity].
destruct (percent_change starting current); [|reflexivity].
destruct (getitem ps "period_close"); reflexivity.
Qed.

Lemma add_custom_signals_stats_core (self : Tick.Algo Transaction Order)
  (ps : Stats) :
  tick_core (fst (Tick.add_custom_signals_stats self ps)) = tick_core self.
Proof.
unfold Tick.add_custom_signals_stats.
destruct (getitem ps "period_close"); reflexivity.
Qed.

Lemma add_exposure_stats_core (self : Tick.Algo Transaction Order) (ps : Stats) :
  tick_core (fst (Tick.add_exposure_stats self ps)) = tick_core self.
Proof.
unfold Tick.add_exposure_stats.
destruct (getitem ps "long_exposure"); [|reflexivity].
destruct (getitem ps "ending_cash"); [|reflexivity].
destruct (getitem ps "period_close"); reflexivity.
Qed.

Lemma save_stats_csv_effect (self : Tick.Algo Transaction Order)
  (recorded_cols : option (list string)) :
  save_stats_csv self recorded_cols
  = (Tick.set_uploads
       (Tick.uploads self
        ++ match Tick.stats_output self with
           | Some out =>
               if str_contains "s3://" out
               then [(out,
                      match stats_to_algo_folder (Tick.frame_stats self)
                                                 recorded_cols with
                      | Ok csv_bytes => Some csv_bytes
                      | Raise _ => None
                      end)]
               else []
           | None => []
           end) self,
     Ok tt).
Proof.
unfold Tick._save_stats_csv.
destruct self as [fs cd pt rv pnl cs es [out|] ao dp up]; simpl.
- destruct (stats_to_algo_folder fs recorded_cols) as [csv|e]; simpl;
    destruct (str_contains "s3://" out); simpl;
    rewrite ?app_nil_r; try reflexivity;
    destruct (stats_to_s3 out fs recorded_cols _); reflexivity.
- destruct (stats_to_algo_folder fs recorded_cols); simpl;
    now rewrite app_nil_r.
Qed.

(** X17: [_save_stats_csv] never raises, whatever the two writers do and
    whatever [stats_output] is.  It calls [stats_to_s3] exactly when
    [stats_output] is set and contains 's3://', with the bytes the local
    writer returned, or [None] when the local writer raised; any other
    output only gives a warning.  Nothing else of the algorithm
    changes. *)
Theorem save_stats_csv_never_raises (self : Tick.Algo Transaction Order)
  (recorded_cols : option (list string)) :
  save_stats_csv self recorded_cols
  = (Tick.set_uploads
       (Tick.uploads self
        ++ match Tick.stats_output self with
           | Some out =>
               if str_contains "s3://" out
               then [(out,
                      match stats_to_algo_folder (Tick.frame_stats self)
                                                 recorded_cols with
                      | Ok csv_bytes => Some csv_bytes
                      | Raise _ => None
                      end)]
               else []
           | None => []
           end) self,
     Ok tt).
Proof. apply save_stats_csv_effect. Qed.

(** What a run of [_process_stats] that returns has done. *)
Lemma process_stats_returns (self self' : Tick.Algo Transaction Order)
  (current_dt : Z) (recorded_cols : option (list string)) :
  process_stats self current_dt = (self', Ok recorded_cols) ->
  exists t,
    update_performance (Tick.perf_tracker self) = (t, Ok tt)
    /\ Tick.perf_tracker self' = t
    /\ Tick.recorded_vars self' = Tick.recorded_vars self
    /\ Tick.algo_objects self' = Tick.algo_objects self
    /\ Tick.frame_stats self'
       = (Tick.frame_stats self
          ++ [prepare t (Tick.recorded_vars self) current_dt
                      (current_dt + minute)%Z])%list
    /\ Tick.daily_perf self'
       = <[strftime (floor_day current_dt) :=
             prepare t (Tick.recorded_vars self) (floor_day current_dt)
                     current_dt]> (Tick.daily_perf self).
Proof.
unfold Tick._process_stats.
destruct (update_performance (Tick.perf_tracker self)) as [t [[]|e]];
  [|discriminate].
intros Hrun. exists t. split; [reflexivity|]. revert Hrun. cbv zeta.
set (s0 := Tick.set_frame_stats _ (Tick.set_perf_tracker t self)).
set (frame := Tick.period_stats_of _ _ _ _ _ _ _ _).
pose proof (add_pnl_stats_core s0 frame) as C1.
destruct (Tick.add_pnl_stats percent_change s0 frame) as [s1 [[]|e1]];
  [|discriminate]. simpl in C1. simpl and_then at 1.
assert (Hstep2 : forall s2 cols,
  tick_core s2 = tick_core s0 ->
  and_then (Tick.add_exposure_stats s2 frame)
    (fun self0 _ =>
       (Tick.set_daily_perf
          (<[strftime (floor_day current_dt) :=
               Tick.period_stats_of transaction_to_dict order_to_dict
                 position_stats calc_period_stats get_positions_list self0
                 (floor_day current_dt) current_dt]> (Tick.daily_perf self0))
          self0, Ok cols))
  = (self', Ok recorded_cols) ->
  Tick.perf_tracker self' = t
  /\ Tick.recorded_vars self' = Tick.recorded_vars self
  /\ Tick.algo_objects self' = Tick.algo_objects self
  /\ Tick.frame_stats self'
     = (Tick.frame_stats self
        ++ [prepare t (Tick.recorded_vars self) current_dt
                    (current_dt + minute)%Z])%list
  /\ Tick.daily_perf self'
     = <[strftime (floor_day current_dt) :=
           prepare t (Tick.recorded_vars self) (floor_day current_dt)
                   current_dt]> (Tick.daily_perf self)).
{ intros s2 cols C2 Hrun.
  pose proof (add_exposure_stats_core s2 frame) as C3.
  destruct (Tick.add_exposure_stats s2 frame) as [s3 [[]|e3]];
    [|discriminate]. simpl in C3, Hrun. rewrite C2 in C3.
  injection Hrun as <- _. unfold tick_core in C3. simpl in C3.
  injection C3 as Hfs _ Hpt Hrv _ Hao Hdp _.
  unfold Tick.period_stats_of. simpl.
  rewrite Hfs, Hpt, Hrv, Hao, Hdp. auto. }
destruct (map_to_list (Tick.recorded_vars s1)) as [|kv l] eqn:Hrv.
- simpl and_then at 1. apply Hstep2. exact C1.
- pose proof (add_custom_signals_stats_core s1 frame) as C2.
  destruct (Tick.add_custom_signals_stats s1 frame) as [s2 [[]|e2]];
    [|discriminate]. simpl in C2. simpl and_then at 1.
  apply Hstep2. now rewrite C2.
Qed.

Lemma process_stats_frames (self : Tick.Algo Transaction Order)
  (current_dt : Z) (t : PerformanceTracker Transaction Order) :
  update_performance (Tick.perf_tracker self) = (t, Ok tt) ->
  Tick.frame_stats (fst (process_stats self current_dt))
  = (Tick.frame_stats self
     ++ [prepare t (Tick.recorded_vars self) current_dt (current_dt + minute)%Z])%list
  /\ Tick.perf_tracker (fst (process_stats self current_dt)) = t.
Proof.
intros Hupd. unfold Tick._process_stats. rewrite Hupd. cbv zeta.
set (s0 := Tick.set_frame_stats _ (Tick.set_perf_tracker t self)).
set (frame := Tick.period_stats_of _ _ _ _ _ _ _ _).
assert (Hkeep : forall (s : Tick.Algo Transaction Order),
          Tick.frame_stats s = Tick.frame_stats s0
          /\ Tick.perf_tracker s = Tick.perf_tracker s0 ->
          Tick.frame_stats s
          = (Tick.frame_stats self
             ++ [prepare t (Tick.recorded_vars self) current_dt
                         (current_dt + minute)%Z])%list
          /\ Tick.perf_tracker s = t).
{ intros s [Hfs Hpt]. rewrite Hfs, Hpt. split; reflexivity. }
apply Hkeep.
apply (and_then_keeps
         (fun s => Tick.frame_stats s = Tick.frame_stats s0
                   /\ Tick.perf_tracker s = Tick.perf_tracker s0)).
{ pose proof (add_pnl_stats_core s0 frame) as C.
  unfold tick_core in C. injection C as Hfs _ Hpt _ _ _ _ _.
  rewrite Hfs, Hpt. auto. }
intros s1 _ [H1 H1']. apply and_then_keeps.
{ destruct (map_to_list (Tick.recorded_vars s1)); simpl; [auto|].
  apply and_then_keeps; [|auto].
  pose proof (add_custom_signals_stats_core s1 frame) as C.
  unfold tick_core in C. injection C as Hfs _ Hpt _ _ _ _ _.
  rewrite Hfs, Hpt. auto. }
intros s2 cols [H2 H2']. apply and_then_keeps; [|auto].
pose proof (add_exposure_stats_core s2 frame) as C.
unfold tick_core in C. injection C as Hfs _ Hpt _ _ _ _ _.
  rewrite Hfs, Hpt. auto.
Qed.

(** X18: on a new day the frames in memory are dropped before the tick's
    own frame is added, and within a day (or at the first tick) they are
    kept: once the performance is updated, [frame_stats] after
    [_process_stats] is what it was, or nothing on a new day, followed by
    the statistics of the minute starting at [current_dt]; this also
    when a later step of [_process_stats] raises. *)
Theorem frames_in_memory_are_those_of_the_day
  (self : Tick.Algo Transaction Order) (current_dt : Z)
  (t : PerformanceTracker Transaction Order) :
  update_performance (Tick.perf_tracker self) = (t, Ok tt) ->
  let frame := prepare t (Tick.recorded_vars self) current_dt
                       (current_dt + minute)%Z in
  let after := fst (process_stats (Tick.reset_frame_stats self current_dt)
                                  current_dt) in
  (forall d, Tick.current_day self = Some d -> (d < floor_day current_dt)%Z ->
             Tick.frame_stats after = [frame])
  /\ (forall d, Tick.current_day self = Some d -> (floor_day current_dt <= d)%Z ->
                Tick.frame_stats after = (Tick.frame_stats self ++ [frame])%list)
  /\ (Tick.current_day self = None ->
      Tick.frame_stats after = (Tick.frame_stats self ++ [frame])%list).
Proof.
intros Hupd frame after. subst frame after.
assert (Hreset : forall s,
          Tick.perf_tracker s = Tick.perf_tracker self ->
          Tick.recorded_vars s = Tick.recorded_vars self ->
          Tick.frame_stats (fst (process_stats s current_dt))
          = (Tick.frame_stats s
             ++ [prepare t (Tick.recorded_vars self) current_dt
                         (current_dt + minute)%Z])%list).
{ intros s Hpt Hrv. rewrite <- Hpt in Hupd.
  rewrite <- Hrv. apply (process_stats_frames s current_dt t Hupd). }
unfold Tick.reset_frame_stats. split; [|split].
- intros d Hday Hnew. rewrite Hday.
  destruct (Z.gtb_spec (floor_day current_dt) d) as [_|Hle]; [|lia].
  now rewrite Hreset.
- intros d Hday Hsame. rewrite Hday.
  destruct (Z.gtb_spec (floor_day current_dt) d) as [Hgt|_]; [lia|].
  now apply Hreset.
- intros Hday. rewrite Hday. now apply Hreset.
Qed.

(** X19: the daily statistics a tick saves, under the key of its day,
    cover the day up to [current_dt] and not beyond: they list
    transactions dated from the start of the day to before [current_dt]
    only, so nothing at the first tick of a day, while the frame of the
    tick lists the transactions dated at [current_dt]. *)
Theorem daily_statistics_stop_before_the_tick
  (self self' : Tick.Algo Transaction Order) (current_dt : Z)
  (recorded_cols : option (list string)) :
  process_stats self current_dt = (self', Ok recorded_cols) ->
  let processed :=
    processed_transactions (todays_performance (Tick.perf_tracker self')) in
  exists daily frame daily_txs daily_orders frame_txs,
    Tick.daily_perf self' !! strftime (floor_day current_dt) = Some daily
    /\ last (Tick.frame_stats self') = Some frame
    /\ daily !! "transactions" = Some (VRows daily_txs)
    /\ daily !! "orders" = Some (VRows daily_orders)
    /\ frame !! "transactions" = Some (VRows frame_txs)
    /\ (forall row, In row daily_txs ->
          exists date ts tx,
            In (date, ts) processed
            /\ (floor_day current_dt <= date < current_dt)%Z
            /\ In tx ts /\ row = transaction_to_dict tx)
    /\ (forall ts tx, In (current_dt, ts) processed -> In tx ts ->
          In (transaction_to_dict tx) frame_txs)
    /\ (current_dt = floor_day current_dt ->
        daily_txs = [] /\ daily_orders = []).
Proof.
intros Hrun processed.
destruct (process_stats_returns _ _ _ _ Hrun)
  as (t & _ & Hpt & _ & _ & Hfs & Hdp).
subst processed. rewrite Hpt.
eexists _, _, _, _, _.
split; [rewrite Hdp; apply lookup_insert_eq|].
split; [rewrite Hfs; apply last_snoc|].
split; [apply prepare_period_stats_transactions|].
split; [apply prepare_period_stats_orders|].
split; [apply prepare_period_stats_transactions|].
split; [|split].
- intros row Hrow. now apply window_transactions_In in Hrow.
- intros ts tx Hin Htx. apply window_transactions_In.
  exists current_dt, ts, tx. unfold minute. repeat split; auto; lia.
- intros Hfirst. split.
  + apply window_transactions_nil. intros date ts _ Hw. lia.
  + apply window_orders_nil. intros date os _ Hw. lia.
Qed.

(** X20: two ticks of one day save their daily statistics under the same
    key: the second replaces the first, and the folder of daily
    statistics has the files it had after the first. *)
Theorem daily_statistics_are_one_file_per_day
  (s0 s1 s2 : Tick.Algo Transaction Order) (dt1 dt2 : Z)
  (cols1 cols2 : option (list string)) :
  process_stats s0 dt1 = (s1, Ok cols1) ->
  process_stats s1 dt2 = (s2, Ok cols2) ->
  floor_day dt1 = floor_day dt2 ->
  Tick.daily_perf s2
  = <[strftime (floor_day dt2) :=
        prepare (Tick.perf_tracker s2) (Tick.recorded_vars s2)
                (floor_day dt2) dt2]> (Tick.daily_perf s0)
  /\ dom (Tick.daily_perf s2) = dom (Tick.daily_perf s1).
Proof.
intros Hrun1 Hrun2 Hday.
destruct (process_stats_returns _ _ _ _ Hrun1)
  as (t1 & _ & _ & Hrv1 & _ & _ & Hdp1).
destruct (process_stats_returns _ _ _ _ Hrun2)
  as (t2 & _ & Hpt2 & Hrv2 & _ & _ & Hdp2).
rewrite Hpt2, Hrv2, Hdp2, Hdp1, Hday. split.
- now rewrite insert_insert_eq.
- now rewrite insert_insert_eq, !dom_insert_L.
Qed.

Lemma process_stats_algo_objects (self : Tick.Algo Transaction Order)
  (current_dt : Z) :
  Tick.algo_objects (fst (process_stats self current_dt))
  = Tick.algo_objects self.
Proof.
unfold Tick._process_stats.
destruct (update_performance (Tick.perf_tracker self)) as [t [[]|e]];
  [|reflexivity].
cbv zeta.
set (s0 := Tick.set_frame_stats _ (Tick.set_perf_tracker t self)).
set (frame := Tick.period_stats_of _ _ _ _ _ _ _ _).
change (Tick.algo_objects self) with (Tick.algo_objects s0).
apply (and_then_keeps
         (fun s => Tick.algo_objects s = Tick.algo_objects s0)).
{ pose proof (add_pnl_stats_core s0 frame) as C.
  unfold tick_core in C. now injection C as _ _ _ _ _ Hao _ _. }
intros s1 _ H1. apply and_then_keeps.
{ destruct (map_to_list (Tick.recorded_vars s1)); simpl; [auto|].
  apply and_then_keeps; [|auto].
  pose proof (add_custom_signals_stats_core s1 frame) as C.
  unfold tick_core in C. injection C as _ _ _ _ _ Hao _ _. now rewrite Hao. }
intros s2 cols H2. apply and_then_keeps; [|auto].
pose proof (add_exposure_stats_core s2 frame) as C.
unfold tick_core in C. injection C as _ _ _ _ _ Hao _ _. now rewrite Hao.
Qed.

(** The statistics of a tick, with their writing: apart from the uploads,
    the state they leave is that of [_process_stats]. *)
Lemma process_and_save_state (self : Tick.Algo Transaction Order)
  (current_dt : Z) :
  let s := fst (and_then (process_stats self current_dt) save_stats_csv) in
  let p := fst (process_stats self current_dt) in
  Tick.algo_objects s = Tick.algo_objects p
  /\ Tick.perf_tracker s = Tick.perf_tracker p
  /\ Tick.frame_stats s = Tick.frame_stats p
  /\ Tick.daily_perf s = Tick.daily_perf p.
Proof.
intros s p. subst s p.
destruct (process_stats self current_dt) as [s' [cols|e]]; simpl; [|auto].
rewrite save_stats_csv_effect. simpl. auto.
Qed.

Lemma after_totals_returns (self s2 : Tick.Algo Transaction Order)
  (current_dt : Z) :
  after_totals self current_dt = (s2, Ok tt) ->
  Tick.algo_objects s2 !! "cumulative_performance"
  = Some (cumulative_performance (Tick.perf_tracker s2)).
Proof.
unfold Tick.handle_data_after_totals.
destruct (match _handle_data with
          | Some callback => callback self current_dt
          | None => (self, Ok tt)
          end) as [s1 [[]|e]]; simpl; [|discriminate].
destruct (validate_account_controls s1); [discriminate|].
destruct (try_except _) as [s' o]. intros [= <-]. simpl.
apply lookup_insert_eq.
Qed.

(** X21: a failure in the statistics never stops a tick: once the
    strategy's callback and the account controls have passed,
    [handle_data] goes on to save the cumulative performance of the
    tracker under 'cumulative_performance' and to set the current day,
    and returns, whatever the update of the performance, the statistics
    or their writers raise.  The tracker is then as the update of the
    performance left it, raised or not; and when that update raises, the
    frames and the daily statistics are as the callback left them. *)
Theorem statistics_errors_do_not_stop_the_tick
  (self s1 : Tick.Algo Transaction Order) (current_dt : Z) :
  match _handle_data with
  | Some callback => callback self current_dt
  | None => (self, Ok tt)
  end = (s1, Ok tt) ->
  validate_account_controls s1 = None ->
  exists s2,
    after_totals self current_dt = (s2, Ok tt)
    /\ Tick.current_day s2 = Some (floor_day current_dt)
    /\ Tick.algo_objects s2
       = <["cumulative_performance" :=
             cumulative_performance (Tick.perf_tracker s2)]>
           (Tick.algo_objects s1)
    /\ (forall t r, update_performance (Tick.perf_tracker s1) = (t, r) ->
                    Tick.perf_tracker s2 = t)
    /\ (forall t e, update_performance (Tick.perf_tracker s1) = (t, Raise e) ->
                    Tick.frame_stats s2 = Tick.frame_stats s1
                    /\ Tick.daily_perf s2 = Tick.daily_perf s1).
Proof.
intros Hcallback Hvalid. unfold Tick.handle_data_after_totals.
rewrite Hcallback. simpl. rewrite Hvalid.
destruct (process_and_save_state s1 current_dt) as (Hao & Hpt & Hfs & Hdp).
pose proof (try_except_state
              (and_then (process_stats s1 current_dt) save_stats_csv)) as Hst.
destruct (try_except _) as [s' o]. simpl in Hst. subst s'.
eexists. split; [reflexivity|]. simpl.
split; [reflexivity|]. split; [|split].
- now rewrite Hao, process_stats_algo_objects.
- intros t [[]|e] Hupd; rewrite Hpt.
  + apply (process_stats_frames s1 current_dt t Hupd).
  + unfold Tick._process_stats. now rewrite Hupd.
- intros t e Hupd. rewrite Hfs, Hdp.
  unfold Tick._process_stats. rewrite Hupd. auto.
Qed.

Variable new_PerformanceTracker : PerformanceTracker Transaction Order.
Variable initialize : Startup Transaction Order -> Startup Transaction Order.

Lemma get_generator_found (folder : gmap string (PerformancePeriod Transaction Order))
  (perf : PerformancePeriod Transaction Order) :
  (forall s, perf_tracker (initialize s) = perf_tracker s) ->
  folder !! "cumulative_performance" = Some perf ->
  perf_tracker (get_generator new_PerformanceTracker initialize
                  (mkStartup None None false folder))
  = Some (resume_from perf new_PerformanceTracker).
Proof.
intros Hinit Hfound. unfold get_generator, get_algo_object. simpl.
rewrite Hfound. simpl. now rewrite Hinit.
Qed.

(** X22: the checkpoint of a tick is what a restart resumes from: after a
    tick that returned, a fresh process started on the saved objects gets
    the tracker's cumulative performance as the tick left it, and starts
    its period from its ending cash, exposure and value and with its
    positions. *)
Theorem restart_after_a_tick_resumes_its_performance
  (self s2 : Tick.Algo Transaction Order) (current_dt : Z) :
  after_totals self current_dt = (s2, Ok tt) ->
  (forall s, perf_tracker (initialize s) = perf_tracker s) ->
  let saved := cumulative_performance (Tick.perf_tracker s2) in
  exists t,
    perf_tracker (get_generator new_PerformanceTracker initialize
                    (mkStartup None None false (Tick.algo_objects s2)))
    = Some t
    /\ cumulative_performance t = saved
    /\ starting_cash (todays_performance t) = ending_cash saved
    /\ starting_exposure (todays_performance t) = ending_exposure saved
    /\ starting_value (todays_performance t) = ending_value saved
    /\ position_tracker (todays_performance t) = position_tracker saved.
Proof.
intros Hrun Hinit saved.
exists (resume_from saved new_PerformanceTracker).
split; [|repeat split].
apply get_generator_found; [exact Hinit|].
exact (after_totals_returns _ _ _ Hrun).
Qed.

End TickFacts.

(** A tick ten nanoseconds into the day after day 0: the frames of day 0
    are dropped. *)
Lemma frames_in_memory_are_those_of_the_day_witness :
  Tick.frame_stats
    (fst (test_process_stats true
            (Tick.reset_frame_stats
               (Tick.set_frame_stats [test_stats ∅ 0 60] test_tick) (day + 10))
            (day + 10)))
  = [test_stats ∅ (day + 10) (day + 10 + minute)].
Proof.
apply (proj1 (frames_in_memory_are_those_of_the_day txn_row (fun _ : unit => ∅)
                (fun _ => mkPositionStats 0 0 0 0 0 0)
                (fun _ _ => mkPeriodStats 0 0) (fun _ => []) (fun t => (t, Ok tt))
                (test_percent_change true) (fun _ => "2018-01-01")
                (Tick.set_frame_stats [test_stats ∅ 0 60] test_tick) (day + 10)
                two_trades_tracker eq_refl) 0%Z eq_refl).
vm_compute. reflexivity.
Defined.

Lemma daily_statistics_stop_before_the_tick_witness :
  exists daily frame daily_txs daily_orders frame_txs,
    Tick.daily_perf (fst (test_process_stats false test_tick 70))
    !! "2018-01-01" = Some daily
    /\ last (Tick.frame_stats (fst (test_process_stats false test_tick 70)))
       = Some frame
    /\ daily !! "transactions" = Some (VRows daily_txs)
    /\ daily !! "orders" = Some (VRows daily_orders)
    /\ frame !! "transactions" = Some (VRows frame_txs)
    /\ (forall row, In row daily_txs ->
          exists date ts tx,
            In (date, ts)
               (processed_transactions
                  (todays_performance
                     (Tick.perf_tracker (fst (test_process_stats false test_tick 70)))))
            /\ (floor_day 70 <= date < 70)%Z
            /\ In tx ts /\ row = txn_row tx)
    /\ (forall ts tx,
          In (70%Z, ts)
             (processed_transactions
                (todays_performance
                   (Tick.perf_tracker (fst (test_process_stats false test_tick 70))))) ->
          In tx ts -> In (txn_row tx) frame_txs)
    /\ (70%Z = floor_day 70 -> daily_txs = [] /\ daily_orders = []).
Proof.
apply (daily_statistics_stop_before_the_tick txn_row (fun _ : unit => ∅)
         (fun _ => mkPositionStats 0 0 0 0 0 0) (fun _ _ => mkPeriodStats 0 0)
         (fun _ => []) (fun t => (t, Ok tt)) (test_percent_change false)
         (fun _ => "2018-01-01") test_tick
         (fst (test_process_stats false test_tick 70)) 70 None).
vm_compute. reflexivity.
Defined.

Lemma daily_statistics_are_one_file_per_day_witness :
  dom (Tick.daily_perf
         (fst (test_process_stats false
                 (fst (test_process_stats false test_tick 10)) 70)))
  = dom (Tick.daily_perf (fst (test_process_stats false test_tick 10))).
Proof.
apply (proj2 (daily_statistics_are_one_file_per_day txn_row (fun _ : unit => ∅)
                (fun _ => mkPositionStats 0 0 0 0 0 0)
                (fun _ _ => mkPeriodStats 0 0) (fun _ => []) (fun t => (t, Ok tt))
                (test_percent_change false) (fun _ => "2018-01-01")
                test_tick (fst (test_process_stats false test_tick 10))
                (fst (test_process_stats false
                        (fst (test_process_stats false test_tick 10)) 70))
                10 70 None None
                ltac:(vm_compute; reflexivity) ltac:(vm_compute; reflexivity)
                ltac:(vm_compute; reflexivity))).
Defined.

(** The percent change fails on every tick: the tick returns all the
    same. *)
Lemma statistics_errors_do_not_stop_the_tick_witness :
  snd (test_after_totals true test_tick 70) = Ok tt.
Proof.
destruct (statistics_errors_do_not_stop_the_tick txn_row (fun _ : unit => ∅)
            (fun _ => mkPositionStats 0 0 0 0 0 0) (fun _ _ => mkPeriodStats 0 0)
            (fun _ => []) (fun t => (t, Ok tt)) (test_percent_change true)
            (fun _ _ => Ok "csv") (fun _ _ _ _ => Ok tt) (fun _ => "2018-01-01")
            None (fun _ => None) test_tick test_tick 70 eq_refl eq_refl)
  as (s2 & Hrun & _).
unfold test_after_totals. now rewrite Hrun.
Defined.

Lemma restart_after_a_tick_resumes_its_performance_witness :
  exists t,
    perf_tracker (get_generator cold_tracker0 id
                    (mkStartup None None false
                       (Tick.algo_objects (fst (test_after_totals false test_tick 70)))))
    = Some t
    /\ cumulative_performance t = two_trades_period
    /\ starting_cash (todays_performance t) = 1000%float
    /\ starting_exposure (todays_performance t) = 0%float
    /\ starting_value (todays_performance t) = 0%float
    /\ position_tracker (todays_performance t) = ∅.
Proof.
apply (restart_after_a_tick_resumes_its_performance txn_row (fun _ : unit => ∅)
         (fun _ => mkPositionStats 0 0 0 0 0 0) (fun _ _ => mkPeriodStats 0 0)
         (fun _ => []) (fun t => (t, Ok tt)) (test_percent_change false)
         (fun _ _ => Ok "csv") (fun _ _ _ _ => Ok tt) (fun _ => "2018-01-01")
         None (fun _ => None) cold_tracker0 id test_tick
         (fst (test_after_totals false test_tick 70)) 70).
- vm_compute. reflexivity.
- reflexivity.
Defined.

(** ** The clock and the lookup of symbols *)

(** X23: the clock is made once: the first read of [clock] makes a
    [LiveGraphClock] when [live_graph] is truthy or a live analysis is
    configured, and a [SimpleClock] otherwise, and every later read
    returns that clock and changes nothing, whatever [live_graph] and
    the live analysis have become. *)
Theorem clock_is_made_once (self : ClockAlgo) (lg : option bool)
  (al : option Callback) :
  _clock self = None ->
  let first := clock self in
  let changed := mkClockAlgo lg al (_clock (fst first)) (sessions (fst first)) in
  clock (fst first) = first
  /\ clock changed = (changed, snd first)
  /\ (snd first = LiveGraphClock (sessions self) (_analyze_live self)
      <-> live_graph self = Some true \/ _analyze_live self <> None)
  /\ (snd first = SimpleClock (sessions self)
      <-> live_graph self <> Some true /\ _analyze_live self = None).
Proof.
intros Hnone first changed. subst first changed. unfold clock.
rewrite Hnone. unfold _create_clock. simpl.
split; [reflexivity|]. split; [reflexivity|].
destruct (live_graph self) as [[|]|], (_analyze_live self) as [cb|]; simpl;
  (split; split; intros H;
   try discriminate; try reflexivity;
   try (left; reflexivity); try (right; discriminate);
   try (split; [discriminate|reflexivity]); try (split; reflexivity);
   try (destruct H as [H|H]; [discriminate|contradiction]);
   try (destruct H as [H _]; contradiction);
   try (destruct H as [_ H]; discriminate)).
Qed.

Lemma clock_is_made_once_witness :
  clock (fst (clock (mkClockAlgo None (Some tt) None [0; 86400]%Z)))
  = clock (mkClockAlgo None (Some tt) None [0; 86400]%Z).
Proof.
exact (proj1 (clock_is_made_once (mkClockAlgo None (Some tt) None [0; 86400]%Z)
                None None eq_refl)).
Defined.

Section SymbolFacts.

Context {Gateway : Type}.
Variable lookup_symbol :
  string -> Gateway -> option string -> Z -> result Asset.

(** X24: a symbol looked up without an exchange name is looked up on the
    first configured exchange, as if that exchange had been named; with
    no exchange configured the lookup raises [IndexError], and a name
    that is not configured raises [KeyError], both before the asset
    finder is asked. *)
Theorem symbol_defaults_to_the_first_exchange (self : Base.Algo Gateway)
  (symbol_str name : string) (ex : Gateway) (rest : list (string * Gateway)) :
  Base.exchanges self = (name, ex) :: rest ->
  Base.symbol lookup_symbol self symbol_str None
  = Base.symbol lookup_symbol self symbol_str (Some name)
  /\ (forall other, dict_get other (Base.exchanges self) = None ->
        Base.symbol lookup_symbol self symbol_str (Some other)
        = Raise (OtherError "KeyError"))
  /\ Base.symbol lookup_symbol
       (Base.mkAlgo [] (Base._symbol_lookup_date self) (Base.end_session self)
                    (Base.arena self) (Base.data_frequency self))
       symbol_str None
     = Raise (OtherError "IndexError").
Proof.
intros Hexs. unfold Base.symbol. rewrite Hexs. simpl.
destruct (decide (name = name)) as [_|Hne]; [|contradiction].
split; [reflexivity|]. split; [|reflexivity].
intros other Hother. simpl in Hother. now rewrite Hother.
Qed.

End SymbolFacts.

Lemma symbol_defaults_to_the_first_exchange_witness :
  Base.symbol (fun s (g : TestGateway) f d => Ok (mkAsset s "A"))
    (Base.mkAlgo [("A", gateway_A); ("B", gateway_B)] None 0 "live" "minute")
    "BTC_USD" None
  = Base.symbol (fun s (g : TestGateway) f d => Ok (mkAsset s "A"))
      (Base.mkAlgo [("A", gateway_A); ("B", gateway_B)] None 0 "live" "minute")
      "BTC_USD" (Some "A").
Proof.
exact (proj1 (symbol_defaults_to_the_first_exchange
                (fun s (g : TestGateway) f d => Ok (mkAsset s "A"))
                (Base.mkAlgo [("A", gateway_A); ("B", gateway_B)] None 0 "live"
                             "minute")
                "BTC_USD" "A" gateway_A [("B", gateway_B)] eq_refl)).
Defined.
